(** * ContratAI: the tool-calling agent and its lookup tools

    A shallow embedding of the Python sources
      - src/agents/conversational_agent.py  (ConversationalAgent)
      - src/tools/modalidade_tools.py       (consultar_modalidade)
      - src/tools/uf_tools.py               (consultar_uf)
      - src/tools/municipio_tools.py        (consultar_municipio)
      - src/tools/pncp_tools.py             (consultar_editais_pncp)
      - src/prompts/loader.py               (PromptLoader)
    together with the properties the specification states about them. *)

From Stdlib Require Import ZArith NArith List String Ascii Lia.
From stdpp Require Import base list gmap strings.

Local Open Scope N_scope.

(** ** Python strings

    A Python [str] is a sequence of Unicode code points.  Source literals
    are written as UTF-8 Rocq strings and decoded by [u]. *)

Module PyStr.

Definition str := list N.

Fixpoint bytes (s : string) : list N :=
  match s with
  | EmptyString => []
  | String a r => N_of_ascii a :: bytes r
  end.

Fixpoint utf8_decode (bs : list N) : str :=
  match bs with
  | [] => []
  | b0 :: r0 =>
    if b0 <? 128 then b0 :: utf8_decode r0
    else
      match r0 with
      | [] => [b0]
      | b1 :: r1 =>
        if b0 <? 224 then ((b0 - 192) * 64 + (b1 - 128)) :: utf8_decode r1
        else
          match r1 with
          | [] => [b0; b1]
          | b2 :: r2 =>
            if b0 <? 240
            then ((b0 - 224) * 4096 + (b1 - 128) * 64 + (b2 - 128)) :: utf8_decode r2
            else
              match r2 with
              | [] => [b0; b1; b2]
              | b3 :: r3 =>
                ((b0 - 240) * 262144 + (b1 - 128) * 4096 + (b2 - 128) * 64 + (b3 - 128))
                  :: utf8_decode r3
              end
          end
      end
  end.

(** [u "..."] is the Python literal ["..."]. *)
Definition u (s : string) : str := utf8_decode (bytes s).

(** [a == b] *)
Definition eqb (a b : str) : bool := bool_decide (a = b).

(** [bool(s)]: a string is truthy when it is not empty. *)
Definition truthy (s : str) : bool :=
  match s with [] => false | _ :: _ => true end.

(** [s.startswith(p)] *)
Fixpoint startswith (p s : str) : bool :=
  match p, s with
  | [], _ => true
  | _ :: _, [] => false
  | a :: p', b :: s' => (a =? b) && startswith p' s'
  end.

(** [sub in s]: substring test. *)
Fixpoint contains (sub s : str) : bool :=
  startswith sub s ||
  match s with
  | [] => false
  | _ :: s' => contains sub s'
  end.

(** [c.lower()] for one code point.  Exact on U+0000..U+00FF (ASCII and
    Latin-1, which covers Portuguese text); code points above U+00FF are
    left unchanged. *)
Definition lower_cp (c : N) : N :=
  if (65 <=? c) && (c <=? 90) then c + 32
  else if (192 <=? c) && (c <=? 222) && negb (c =? 215) then c + 32
  else c.

Definition lower (s : str) : str := map lower_cp s.

(** [c.upper()] for one code point, with the same range as [lower_cp];
    three Latin-1 letters have an upper case outside Latin-1. *)
Definition upper_cp (c : N) : str :=
  if (97 <=? c) && (c <=? 122) then [c - 32]
  else if (224 <=? c) && (c <=? 254) && negb (c =? 247) then [c - 32]
  else if c =? 223 then [83; 83]
  else if c =? 255 then [376]
  else if c =? 181 then [924]
  else [c].

Definition upper (s : str) : str := flat_map upper_cp s.

(** [c.isspace()]: the Unicode white space that [split()] and [strip()]
    use. *)
Definition isspace (c : N) : bool :=
  ((9 <=? c) && (c <=? 13)) || ((28 <=? c) && (c <=? 32))
  || (c =? 133) || (c =? 160) || (c =? 5760)
  || ((8192 <=? c) && (c <=? 8202))
  || (c =? 8232) || (c =? 8233) || (c =? 8239) || (c =? 8287) || (c =? 12288).

Fixpoint lstrip (s : str) : str :=
  match s with
  | [] => []
  | c :: s' => if isspace c then lstrip s' else s
  end.

Definition rstrip (s : str) : str := rev (lstrip (rev s)).

(** [s.strip()] *)
Definition strip (s : str) : str := rstrip (lstrip s).

(** [s.split()]: the maximal runs of non-space code points.  [cur] is the
    word being read, reversed. *)
Fixpoint split_aux (cur : str) (s : str) : list str :=
  match s with
  | [] => match cur with [] => [] | _ => [rev cur] end
  | c :: s' =>
    if isspace c
    then match cur with
         | [] => split_aux [] s'
         | _ => rev cur :: split_aux [] s'
         end
    else split_aux (c :: cur) s'
  end.

Definition split (s : str) : list str := split_aux [] s.

(** [sep.join(ws)] *)
Fixpoint join (sep : str) (ws : list str) : str :=
  match ws with
  | [] => []
  | [w] => w
  | w :: ws' => w ++ sep ++ join sep ws'
  end.

(** [s.replace(old, new)] where [old] is one code point. *)
Definition replace1 (old : N) (new : str) (s : str) : str :=
  flat_map (fun c => if c =? old then new else [c]) s.

(** Decimal digits of [n], zero-padded to [width] (as [%02d], [%04d]). *)
Fixpoint zfill (width : nat) (n : N) : str :=
  match width with
  | O => []
  | S w => zfill w (n / 10) ++ [48 + n mod 10]
  end.

End PyStr.

Import PyStr.

(** ** Values shared by the tools *)

(** The object handed to [json.dumps]; a dict is written as its items in
    insertion order.  Every tool returns the text [json.dumps(v,
    ensure_ascii=False, indent=2)] of such a value [v], which is what the
    definitions below return. *)
#[local] Set Warnings "-register-all".

Inductive json : Type :=
| JNull
| JBool (b : bool)
| JInt (z : Z)
| JStr (s : str)
| JList (l : list json)
| JDict (d : list (string * json)).

(** A raised Python exception: its class and [str(e)]. *)
Record exception := Exc { classe : string; mensagem : str }.

(** The outcome of code that may raise. *)
Inductive result (A : Type) : Type :=
| Ok (a : A)
| Raise (e : exception).
Arguments Ok {A} a.
Arguments Raise {A} e.

#[global] Instance result_bind : MBind result := fun A B k r =>
  match r with
  | Ok a => k a
  | Raise e => Raise e
  end.

(** [for x in l: ...] over a body that may raise. *)
Fixpoint mapM {A B} (f : A -> result B) (l : list A) : result (list B) :=
  match l with
  | [] => Ok []
  | x :: l' => y ← f x; ys ← mapM f l'; Ok (y :: ys)
  end.

(** [len(l)] as a JSON number. *)
Definition jlen {A} (l : list A) : json := JInt (Z.of_nat (length l)).

(** Reading a key of a payload. *)
Fixpoint assoc (k : string) (d : list (string * json)) : option json :=
  match d with
  | [] => None
  | (k', v) :: d' => if String.eqb k k' then Some v else assoc k d'
  end.

Definition campo_de (k : string) (v : json) : option json :=
  match v with
  | JDict d => assoc k d
  | _ => None
  end.

(** ** src/tools/modalidade_tools.py *)

Module Modalidade.

Record modalidade := { codigo : Z; m_nome : str; m_tipo : str }.

Definition modalidade_json (m : modalidade) : json :=
  JDict [("codigo", JInt (codigo m)); ("nome", JStr (m_nome m));
         ("tipo", JStr (m_tipo m))].

Definition obter_modalidades_contratacao : list modalidade :=
  [ {| codigo := 1;  m_nome := u "Leilão - Eletrônico";       m_tipo := u "Leilão" |};
    {| codigo := 4;  m_nome := u "Concorrência - Eletrônica"; m_tipo := u "Concorrência" |};
    {| codigo := 5;  m_nome := u "Concorrência - Presencial"; m_tipo := u "Concorrência" |};
    {| codigo := 6;  m_nome := u "Pregão - Eletrônico";       m_tipo := u "Pregão" |};
    {| codigo := 7;  m_nome := u "Pregão - Presencial";       m_tipo := u "Pregão" |};
    {| codigo := 8;  m_nome := u "Dispensa";                  m_tipo := u "Dispensa" |};
    {| codigo := 9;  m_nome := u "Inexigibilidade";           m_tipo := u "Inexigibilidade" |};
    {| codigo := 11; m_nome := u "Pré-qualificação";          m_tipo := u "Pré-qualificação" |};
    {| codigo := 12; m_nome := u "Credenciamento";            m_tipo := u "Credenciamento" |};
    {| codigo := 13; m_nome := u "Leilão - Presencial";       m_tipo := u "Leilão" |} ].

(** [' '.join(texto.replace('-', ' ').lower().split())] *)
Definition normalizar (texto : str) : str :=
  join (u " ") (split (lower (replace1 45 (u " ") texto))).

(** The condition of the list comprehension. *)
Definition casa (nome_normalizado : str) (m : modalidade) : bool :=
  contains nome_normalizado (normalizar (m_nome m))
  || contains nome_normalizado (normalizar (m_tipo m))
  || existsb (fun palavra => contains palavra (normalizar (m_nome m)))
             (split nome_normalizado).

Definition resultados_modalidade (nome : option str) : list modalidade :=
  let modalidades := obter_modalidades_contratacao in
  match nome with
  | Some ((_ :: _) as nome) =>
    let nome_normalizado := normalizar nome in
    List.filter (casa nome_normalizado) modalidades
  | _ => modalidades
  end.

Definition consultar_modalidade (nome : option str) : json :=
  let modalidades := obter_modalidades_contratacao in
  let resultados := resultados_modalidade nome in
  match resultados with
  | _ :: _ =>
    JDict [("success", JBool true);
           ("total_encontrados", jlen resultados);
           ("modalidades", JList (map modalidade_json resultados))]
  | [] =>
    JDict [("success", JBool false);
           ("message",
            JStr (u "Nenhuma modalidade encontrada com os critérios especificados"));
           ("modalidades_disponiveis", JList (map modalidade_json modalidades))]
  end.

End Modalidade.

(** ** src/tools/uf_tools.py *)

Module UF.

(** A row of data/estados_brasil.json, with the keys the code reads. *)
Record regiao := { r_id : Z; r_sigla : str; r_nome : str }.
Record estado := { e_id : Z; e_sigla : str; e_nome : str; e_regiao : regiao }.

Definition estado_json (e : estado) : json :=
  JDict [("id", JInt (e_id e)); ("sigla", JStr (e_sigla e));
         ("nome", JStr (e_nome e));
         ("regiao", JDict [("id", JInt (r_id (e_regiao e)));
                           ("sigla", JStr (r_sigla (e_regiao e)));
                           ("nome", JStr (r_nome (e_regiao e)))])].

Section Tabela.

(** What [json.load] gives for data/estados_brasil.json, [None] when
    opening or parsing the file raises. *)
Variable arquivo_estados : option (list estado).

(** [try: ... return json.load(f)  except Exception: return []] *)
Definition carregar_estados_brasil : list estado :=
  match arquivo_estados with
  | Some estados => estados
  | None => []
  end.

(** The [if / elif] chain that computes [resultados]. *)
Definition resultados_uf (estados : list estado)
    (id : option Z) (sigla nome regiao_nome : option str) : list estado :=
  match id with
  | Some id => List.filter (fun e => (e_id e =? id)%Z) estados
  | None =>
    match sigla with
    | Some ((_ :: _) as sigla) =>
      let sigla_upper := strip (upper sigla) in
      List.filter (fun e => eqb (e_sigla e) sigla_upper) estados
    | _ =>
      match nome with
      | Some ((_ :: _) as nome) =>
        let nome_lower := strip (lower nome) in
        List.filter (fun e => contains nome_lower (lower (e_nome e))) estados
      | _ =>
        match regiao_nome with
        | Some ((_ :: _) as regiao_nome) =>
          let regiao_lower := strip (lower regiao_nome) in
          List.filter
            (fun e => contains regiao_lower (lower (r_nome (e_regiao e))))
            estados
        | _ => estados
        end
      end
    end
  end.

Definition consultar_uf (id : option Z) (sigla nome regiao_nome : option str)
    : json :=
  let estados := carregar_estados_brasil in
  match estados with
  | [] =>
    JDict [("success", JBool false);
           ("error", JStr (u "Não foi possível carregar os dados dos estados"))]
  | _ :: _ =>
    let resultados := resultados_uf estados id sigla nome regiao_nome in
    match resultados with
    | _ :: _ =>
      JDict [("success", JBool true);
             ("total_encontrados", jlen resultados);
             ("estados", JList (map estado_json resultados))]
    | [] =>
      JDict [("success", JBool false);
             ("message",
              JStr (u "Nenhum estado encontrado com os critérios especificados"))]
    end
  end.

(** *** The rule as the specification words it

    One filter is applied: the first supplied one in the order id,
    sigla, nome, regiao_nome; the whole table when none is supplied. *)

Inductive filtro :=
| PorId (id : Z)
| PorSigla (sigla : str)
| PorNome (nome : str)
| PorRegiao (regiao_nome : str).

(** A text argument is supplied when it is given and not empty. *)
Definition fornecido (s : option str) : option str :=
  match s with
  | Some ((_ :: _) as s) => Some s
  | _ => None
  end.

Definition filtro_prioritario (id : option Z) (sigla nome regiao_nome : option str)
    : option filtro :=
  match id, fornecido sigla, fornecido nome, fornecido regiao_nome with
  | Some id, _, _, _ => Some (PorId id)
  | None, Some sigla, _, _ => Some (PorSigla sigla)
  | None, None, Some nome, _ => Some (PorNome nome)
  | None, None, None, Some regiao_nome => Some (PorRegiao regiao_nome)
  | None, None, None, None => None
  end.

(** Exact id; exact upper-cased abbreviation; case-insensitive
    substring of the name; case-insensitive substring of the region
    name. *)
Definition satisfaz (f : filtro) (e : estado) : bool :=
  match f with
  | PorId id => (e_id e =? id)%Z
  | PorSigla sigla => eqb (e_sigla e) (strip (upper sigla))
  | PorNome nome => contains (strip (lower nome)) (lower (e_nome e))
  | PorRegiao regiao_nome =>
    contains (strip (lower regiao_nome)) (lower (r_nome (e_regiao e)))
  end.

Definition consultar_uf_spec (id : option Z) (sigla nome regiao_nome : option str)
    : json :=
  match carregar_estados_brasil with
  | [] =>
    JDict [("success", JBool false);
           ("error", JStr (u "Não foi possível carregar os dados dos estados"))]
  | _ :: _ =>
    let selecionados :=
      match filtro_prioritario id sigla nome regiao_nome with
      | Some f => List.filter (satisfaz f) carregar_estados_brasil
      | None => carregar_estados_brasil
      end in
    match selecionados with
    | _ :: _ =>
      JDict [("success", JBool true);
             ("total_encontrados", jlen selecionados);
             ("estados", JList (map estado_json selecionados))]
    | [] =>
      JDict [("success", JBool false);
             ("message",
              JStr (u "Nenhum estado encontrado com os critérios especificados"))]
    end
  end.

End Tabela.

End UF.

(** ** src/tools/municipio_tools.py *)

Module Municipio.

(** A key that holds a nested object: missing, [null], or an object.
    [d.get(k)] does not tell the first two apart, [d.get(k, {})] does. *)
Inductive campo (A : Type) : Type :=
| Ausente
| Nulo
| Presente (a : A).
Arguments Ausente {A}.
Arguments Nulo {A}.
Arguments Presente {A} a.

(** A row of data/municipios.json, with the keys the code reads: ["id"]
    and ["nome"] by index, the others through [get] ([None] in an
    [option] field stands for a missing key or [null]). *)
Record uf := { uf_id : option Z; uf_sigla : option str; uf_nome : option str }.
Record mesorregiao := { meso_nome : option str; meso_UF : campo uf }.
Record microrregiao := { micro_nome : option str; micro_mesorregiao : campo mesorregiao }.
Record municipio := { m_id : Z; m_nome : str; m_microrregiao : campo microrregiao }.

(** [d.get(k)]: the object, or [None]. *)
Definition get {A} (c : campo A) : option A :=
  match c with
  | Presente a => Some a
  | _ => None
  end.

(** [d.get(k, {})]: the object, the empty dict for a missing key, and
    [None] for [null]. *)
Inductive dict_ou_none (A : Type) : Type :=
| Dict (a : A)
| DictVazio
| NoneValor.
Arguments Dict {A} a.
Arguments DictVazio {A}.
Arguments NoneValor {A}.

Definition get_default {A} (c : campo A) : dict_ou_none A :=
  match c with
  | Presente a => Dict a
  | Ausente => DictVazio
  | Nulo => NoneValor
  end.

Definition attribute_error : exception :=
  Exc "AttributeError" (u "'NoneType' object has no attribute 'get'").

(** [x.get(k, {})] on the value [x] of a previous [get_default]. *)
Definition get_em {A B} (x : dict_ou_none A) (k : A -> campo B)
    : result (dict_ou_none B) :=
  match x with
  | Dict a => Ok (get_default (k a))
  | DictVazio => Ok DictVazio
  | NoneValor => Raise attribute_error
  end.

(** [x.get(k)] on such a value, for a key that holds text or a number. *)
Definition get_folha {A B} (x : dict_ou_none A) (k : A -> option B)
    : result (option B) :=
  match x with
  | Dict a => Ok (k a)
  | DictVazio => Ok None
  | NoneValor => Raise attribute_error
  end.

Definition jopt {A} (f : A -> json) (o : option A) : json :=
  match o with
  | Some a => f a
  | None => JNull
  end.

(** The body of [for m in resultados:] that builds one compact row. *)
Definition formatar (m : municipio) : result json :=
  let micro := get_default (m_microrregiao m) in
  meso ← get_em micro micro_mesorregiao;
  uf ← get_em meso meso_UF;
  id ← get_folha uf uf_id;
  sigla ← get_folha uf uf_sigla;
  nome ← get_folha uf uf_nome;
  micro_n ← get_folha micro micro_nome;
  meso' ← get_em micro micro_mesorregiao;
  meso_n ← get_folha meso' meso_nome;
  Ok (JDict [("id", JInt (m_id m));
             ("nome", JStr (m_nome m));
             ("uf", JDict [("id", jopt JInt id);
                           ("sigla", jopt JStr sigla);
                           ("nome", jopt JStr nome)]);
             ("microrregiao", jopt JStr micro_n);
             ("mesorregiao", jopt JStr meso_n)]).

(** The guarded walk [m.get("microrregiao")] ... [mesorregiao.get("UF")]
    of the two state filters. *)
Definition uf_de (m : municipio) : option uf :=
  match get (m_microrregiao m) with
  | Some microregiao =>
    match get (micro_mesorregiao microregiao) with
    | Some mesorregiao => get (meso_UF mesorregiao)
    | None => None
    end
  | None => None
  end.

Definition opt_eqb {A} (eq : A -> A -> bool) (o : option A) (a : A) : bool :=
  match o with
  | Some b => eq b a
  | None => false
  end.

Section Tabela.

(** What [json.load] gives for data/municipios.json, [None] when opening
    or parsing the file raises. *)
Variable arquivo_municipios : option (list municipio).

Definition carregar_municipios_brasil : list municipio :=
  match arquivo_municipios with
  | Some municipios => municipios
  | None => []
  end.

(** The matches of the name search, before the cut at 50. *)
Definition casam_nome (municipios : list municipio) (nome : str) : list municipio :=
  let nome_lower := strip (lower nome) in
  List.filter (fun m => contains nome_lower (lower (m_nome m))) municipios.

(** The [if / elif] chain: [None] is the final [else], which returns
    at once. *)
Definition resultados_municipio (municipios : list municipio)
    (id : option Z) (nome : option str) (uf_id_ : option Z) (uf_sigla_ : option str)
    : option (list municipio) :=
  match id with
  | Some id => Some (List.filter (fun m => (m_id m =? id)%Z) municipios)
  | None =>
    match nome with
    | Some ((_ :: _) as nome) =>
      let resultados := casam_nome municipios nome in
      if (50 <? length resultados)%nat
      then Some (firstn 50 resultados)
      else Some resultados
    | _ =>
      match uf_id_ with
      | Some uf_id_ =>
        Some (List.filter
                (fun m => match uf_de m with
                          | Some uf => opt_eqb Z.eqb (uf_id uf) uf_id_
                          | None => false
                          end) municipios)
      | None =>
        match uf_sigla_ with
        | Some ((_ :: _) as uf_sigla_) =>
          let uf_sigla_upper := strip (upper uf_sigla_) in
          Some (List.filter
                  (fun m => match uf_de m with
                            | Some uf => opt_eqb eqb (uf_sigla uf) uf_sigla_upper
                            | None => false
                            end) municipios)
        | _ => None
        end
      end
    end
  end.

Definition consultar_municipio
    (id : option Z) (nome : option str) (uf_id_ : option Z) (uf_sigla_ : option str)
    : result json :=
  let municipios := carregar_municipios_brasil in
  match municipios with
  | [] =>
    Ok (JDict [("success", JBool false);
               ("error",
                JStr (u "Não foi possível carregar os dados dos municípios"))])
  | _ :: _ =>
    match resultados_municipio municipios id nome uf_id_ uf_sigla_ with
    | None =>
      Ok (JDict [("success", JBool false);
                 ("message",
                  JStr (u "Por favor, forneça ao menos um critério de busca (id, nome, uf_id ou uf_sigla)"));
                 ("total_municipios", jlen municipios)])
    | Some ((_ :: _) as resultados) =>
      municipios_formatados ← mapM formatar resultados;
      Ok (JDict [("success", JBool true);
                 ("total_encontrados", jlen resultados);
                 ("municipios", JList municipios_formatados)])
    | Some [] =>
      Ok (JDict [("success", JBool false);
                 ("message",
                  JStr (u "Nenhum município encontrado com os critérios especificados"))])
    end
  end.

End Tabela.

(** A row holds [null] where a nested object is expected, on the path
    ["microrregiao"], ["mesorregiao"], ["UF"]. *)
Definition tem_nulo (m : municipio) : bool :=
  match m_microrregiao m with
  | Nulo => true
  | Ausente => false
  | Presente micro =>
    match micro_mesorregiao micro with
    | Nulo => true
    | Ausente => false
    | Presente meso =>
      match meso_UF meso with
      | Nulo => true
      | _ => false
      end
    end
  end.

End Municipio.

(** ** src/tools/pncp_tools.py *)

Module PNCP.

(** A value of the query-string dict [params]. *)
Inductive valor :=
| VInt (z : Z)
| VStr (s : str).

(** [max(10, min(tamanho_pagina, 500)) if tamanho_pagina else 10] *)
Definition tamanho_valido (tamanho_pagina : Z) : Z :=
  if (tamanho_pagina =? 0)%Z then 10%Z
  else Z.max 10 (Z.min tamanho_pagina 500).

(** [cnpj.replace(".", "").replace("/", "").replace("-", "")] *)
Definition limpar_cnpj (cnpj : str) : str :=
  replace1 45 [] (replace1 47 [] (replace1 46 [] cnpj)).

(** [if x: params[k] = f(x)] for an optional text argument. *)
Definition se_str (k : string) (f : str -> valor) (x : option str)
    (params : gmap string valor) : gmap string valor :=
  match x with
  | Some ((_ :: _) as x) => <[k := f x]> params
  | _ => params
  end.

(** [if x: params[k] = x] for an optional integer argument. *)
Definition se_int (k : string) (x : option Z)
    (params : gmap string valor) : gmap string valor :=
  match x with
  | Some x => if (x =? 0)%Z then params else <[k := VInt x]> params
  | None => params
  end.

(** The dict [params] as it is when [requests.get] is called. *)
Definition params (data_final : str) (pagina tamanho_pagina : Z)
    (uf cnpj : option str) (codigo_modalidade : option Z)
    (codigo_municipio_ibge : option str) : gmap string valor :=
  let params : gmap string valor :=
    <["tamanhoPagina" := VInt (tamanho_valido tamanho_pagina)]>
      (<["pagina" := VInt pagina]> (<["dataFinal" := VStr data_final]> ∅)) in
  let params := se_str "uf" (fun uf => VStr (upper uf)) uf params in
  let params := se_str "cnpj" (fun cnpj => VStr (limpar_cnpj cnpj)) cnpj params in
  let params := se_int "codigoModalidadeContratacao" codigo_modalidade params in
  se_str "codigoMunicipioIbge" VStr codigo_municipio_ibge params.

Section Requisicao.

(** The [try] block: the GET to the PNCP endpoint with [params] and the
    reshaping of its answer, or of its failure, into the payload. *)
Variable requisitar : gmap string valor -> json.

Definition consultar_editais_pncp (data_final : str) (pagina tamanho_pagina : Z)
    (uf cnpj : option str) (codigo_modalidade : option Z)
    (codigo_municipio_ibge : option str) : json :=
  requisitar (params data_final pagina tamanho_pagina uf cnpj
                     codigo_modalidade codigo_municipio_ibge).

End Requisicao.

(** *** The [try] block *)

(** [type(v).__name__] of a parsed JSON value.  A JSON number is an integer
    here ([json] has no fractional numbers); the code only copies the
    numbers of the answer. *)
Definition tipo (v : json) : string :=
  match v with
  | JNull => "NoneType"
  | JBool _ => "bool"
  | JInt _ => "int"
  | JStr _ => "str"
  | JList _ => "list"
  | JDict _ => "dict"
  end.

(** [v.get(k, padrao)]: a dict answers, anything else has no [get]. *)
Definition py_get (v : json) (k : string) (padrao : json) : result json :=
  match v with
  | JDict d => Ok (default padrao (assoc k d))
  | _ => Raise (Exc "AttributeError"
                    (u "'" ++ u (tipo v) ++ u "' object has no attribute 'get'"))
  end.

(** [len(v)] *)
Definition py_len (v : json) : result json :=
  match v with
  | JList l => Ok (jlen l)
  | JDict d => Ok (jlen d)
  | JStr s => Ok (jlen s)
  | _ => Raise (Exc "TypeError"
                    (u "object of type '" ++ u (tipo v) ++ u "' has no len()"))
  end.

(** [for item in v]: the elements of a list, the keys of a dict, the
    characters of a text. *)
Definition py_iter (v : json) : result (list json) :=
  match v with
  | JList l => Ok l
  | JDict d => Ok (map (fun kv => JStr (u (fst kv))) d)
  | JStr s => Ok (map (fun c => JStr [c]) s)
  | _ => Raise (Exc "TypeError" (u "'" ++ u (tipo v) ++ u "' object is not iterable"))
  end.

(** [item.get(k)] *)
Definition get1 (item : json) (k : string) : result json := py_get item k JNull.

(** [item.get(k1, {}).get(k2)] *)
Definition get2 (item : json) (k1 k2 : string) : result json :=
  d ← py_get item k1 (JDict []);
  py_get d k2 JNull.

(** The dict [edital] built from one record of the answer. *)
Definition edital (item : json) : result json :=
  numero_controle_pncp ← get1 item "numeroControlePNCP";
  numero_compra ← get1 item "numeroCompra";
  processo ← get1 item "processo";
  objeto ← get1 item "objetoCompra";
  modalidade ← get1 item "modalidadeNome";
  modo_disputa ← get1 item "modoDisputaNome";
  situacao ← get1 item "situacaoCompraNome";
  valor_estimado ← get1 item "valorTotalEstimado";
  valor_homologado ← get1 item "valorTotalHomologado";
  srp ← get1 item "srp";
  data_abertura_proposta ← get1 item "dataAberturaProposta";
  data_encerramento_proposta ← get1 item "dataEncerramentoProposta";
  data_publicacao_pncp ← get1 item "dataPublicacaoPncp";
  cnpj ← get2 item "orgaoEntidade" "cnpj";
  razao_social ← get2 item "orgaoEntidade" "razaoSocial";
  poder ← get2 item "orgaoEntidade" "poderId";
  esfera ← get2 item "orgaoEntidade" "esferaId";
  nome ← get2 item "unidadeOrgao" "nomeUnidade";
  municipio ← get2 item "unidadeOrgao" "municipioNome";
  uf ← get2 item "unidadeOrgao" "ufSigla";
  codigo_ibge ← get2 item "unidadeOrgao" "codigoIbge";
  amparo_nome ← get2 item "amparoLegal" "nome";
  amparo_descricao ← get2 item "amparoLegal" "descricao";
  tipo_instrumento ← get1 item "tipoInstrumentoConvocatorioNome";
  link_sistema_origem ← get1 item "linkSistemaOrigem";
  informacao_complementar ← get1 item "informacaoComplementar";
  Ok (JDict [("numero_controle_pncp", numero_controle_pncp);
             ("numero_compra", numero_compra);
             ("processo", processo);
             ("objeto", objeto);
             ("modalidade", modalidade);
             ("modo_disputa", modo_disputa);
             ("situacao", situacao);
             ("valor_estimado", valor_estimado);
             ("valor_homologado", valor_homologado);
             ("srp", srp);
             ("data_abertura_proposta", data_abertura_proposta);
             ("data_encerramento_proposta", data_encerramento_proposta);
             ("data_publicacao_pncp", data_publicacao_pncp);
             ("orgao_entidade", JDict [("cnpj", cnpj);
                                       ("razao_social", razao_social);
                                       ("poder", poder);
                                       ("esfera", esfera)]);
             ("unidade_orgao", JDict [("nome", nome);
                                      ("municipio", municipio);
                                      ("uf", uf);
                                      ("codigo_ibge", codigo_ibge)]);
             ("amparo_legal", JDict [("nome", amparo_nome);
                                     ("descricao", amparo_descricao)]);
             ("tipo_instrumento", tipo_instrumento);
             ("link_sistema_origem", link_sistema_origem);
             ("informacao_complementar", informacao_complementar)]).

(** A record of the answer from which [edital] can be built: an object
    whose ["orgaoEntidade"], ["unidadeOrgao"] and ["amparoLegal"] are
    objects or missing. *)
Definition aninhado_ok (d : list (string * json)) (k : string) : bool :=
  match assoc k d with
  | None => true
  | Some (JDict _) => true
  | Some _ => false
  end.

Definition registro_bem_formado (item : json) : bool :=
  match item with
  | JDict d =>
    aninhado_ok d "orgaoEntidade" && aninhado_ok d "unidadeOrgao"
    && aninhado_ok d "amparoLegal"
  | _ => false
  end.

(** The branch of status 200: the dict [result], with its list ["editais"]
    filled by the loop. *)
Definition resultado_200 (data : json) (pagina : Z) : result json :=
  total_registros ← py_get data "totalRegistros" (JInt 0);
  total_paginas ← py_get data "totalPaginas" (JInt 0);
  pagina_atual ← py_get data "numeroPagina" (JInt pagina);
  paginas_restantes ← py_get data "paginasRestantes" (JInt 0);
  registros ← py_get data "data" (JList []);
  quantidade_resultados ← py_len registros;
  registros ← py_get data "data" (JList []);
  itens ← py_iter registros;
  editais ← mapM edital itens;
  Ok (JDict [("success", JBool true);
             ("fonte", JStr (u "Portal Nacional de Contratações Públicas (PNCP)"));
             ("total_registros", total_registros);
             ("total_paginas", total_paginas);
             ("pagina_atual", pagina_atual);
             ("paginas_restantes", paginas_restantes);
             ("quantidade_resultados", quantidade_resultados);
             ("editais", JList editais)]).

Definition valor_json (v : valor) : json :=
  match v with
  | VInt z => JInt z
  | VStr s => JStr s
  end.

(** The keys [params] can hold, in the order the code inserts them. *)
Definition chaves_params : list string :=
  ["dataFinal"; "pagina"; "tamanhoPagina"; "uf"; "cnpj";
   "codigoModalidadeContratacao"; "codigoMunicipioIbge"].

(** The dict [params] as a JSON object. *)
Definition params_json (ps : gmap string valor) : json :=
  JDict (omap (fun k => match ps !! k with
                        | Some v => Some (k, valor_json v)
                        | None => None
                        end) chaves_params).

(** What [requests.get] returns: the status, [response.json()] (which may
    raise) and [response.text]. *)
Record response := {
  status_code : Z;
  resp_json : result json;
  text : str
}.

(** [except requests.exceptions.Timeout]: the class and its two
    subclasses. *)
Definition eh_timeout (e : exception) : bool :=
  String.eqb (classe e) "Timeout" || String.eqb (classe e) "ConnectTimeout"
  || String.eqb (classe e) "ReadTimeout".

Definition api_url : string :=
  "https://pncp.gov.br/api/consulta/v1/contratacoes/proposta".

Section Http.

(** [requests.get(api_url, params=params, headers=headers, timeout=30)]:
    the response, or the exception it raises. *)
Variable requests_get : string -> gmap string valor -> result response.

(** [json.dumps(v, ensure_ascii=False, indent=2)], as a text. *)
Variable dumps : json -> str.

(** The branch of any other status. *)
Definition resultado_erro (r : response) (ps : gmap string valor) : json :=
  let error_detail :=
    match resp_json r with
    | Ok error_data => [10] ++ u "Detalhes: " ++ dumps error_data
    | Raise _ => [10] ++ u "Resposta: " ++ firstn 500 (text r)
    end in
  JDict [("success", JBool false);
         ("error", JStr (u "Erro na requisição à API do PNCP"));
         ("status_code", JInt (status_code r));
         ("message",
          JStr (u "Não foi possível obter os dados. Verifique os parâmetros e tente novamente."
                ++ error_detail));
         ("parametros_enviados", params_json ps)].

(** The body of the [try]. *)
Definition corpo_try (pagina : Z) (ps : gmap string valor) : result json :=
  r ← requests_get api_url ps;
  if (status_code r =? 200)%Z
  then data ← resp_json r; resultado_200 data pagina
  else Ok (resultado_erro r ps).

(** The [try] with its two [except] clauses. *)
Definition bloco_try (pagina : Z) (ps : gmap string valor) : json :=
  match corpo_try pagina ps with
  | Ok texto => texto
  | Raise e =>
    if eh_timeout e
    then JDict [("success", JBool false);
                ("error", JStr (u "Timeout na requisição"));
                ("message",
                 JStr (u "A API do PNCP demorou muito para responder. Tente novamente."))]
    else JDict [("success", JBool false);
                ("error", JStr (mensagem e));
                ("message", JStr (u "Erro ao consultar a API do PNCP"))]
  end.

(** [consultar_editais_pncp] with its [try] block written out. *)
Definition consultar_editais_pncp_http (data_final : str) (pagina tamanho_pagina : Z)
    (uf cnpj : option str) (codigo_modalidade : option Z)
    (codigo_municipio_ibge : option str) : json :=
  consultar_editais_pncp (bloco_try pagina) data_final pagina tamanho_pagina
    uf cnpj codigo_modalidade codigo_municipio_ibge.

End Http.

End PNCP.

(** ** src/agents/conversational_agent.py *)

Module Agent.

(** One entry of [response.tool_calls]. *)
Record tool_call := { tc_name : str; tc_args : json; tc_id : str }.

(** langchain_core.messages *)
Inductive message :=
| SystemMessage (content : str)
| HumanMessage (content : str)
| AIMessage (content : str) (tool_calls : list tool_call)
| ToolMessage (content : str) (tool_call_id : str).

(** What the model answers: always an [AIMessage]. *)
Record ai_message := { content : str; tool_calls : list tool_call }.

(** *** The date part of [datetime.now()] *)

Record data := { ano : N; mes : N; dia : N }.

Definition bissexto (y : N) : bool :=
  (y mod 4 =? 0) && (negb (y mod 100 =? 0) || (y mod 400 =? 0)).

Definition dias_no_mes (y m : N) : N :=
  if m =? 2 then (if bissexto y then 29 else 28)
  else if (m =? 4) || (m =? 6) || (m =? 9) || (m =? 11) then 30
  else 31.

Definition dia_seguinte (d : data) : data :=
  if dia d <? dias_no_mes (ano d) (mes d)
  then {| ano := ano d; mes := mes d; dia := dia d + 1 |}
  else if mes d <? 12
       then {| ano := ano d; mes := mes d + 1; dia := 1 |}
       else {| ano := ano d + 1; mes := 1; dia := 1 |}.

(** [d + timedelta(days=n)], for a result up to the year 9999. *)
Definition mais_dias (n : nat) (d : data) : data := Nat.iter n dia_seguinte d.

(** [strftime("%d/%m/%Y")] and [strftime("%Y%m%d")], for the years 1000
    to 9999. *)
Definition strftime_dmY (d : data) : str :=
  zfill 2 (dia d) ++ u "/" ++ zfill 2 (mes d) ++ u "/" ++ zfill 4 (ano d).

Definition strftime_Ymd (d : data) : str :=
  zfill 4 (ano d) ++ zfill 2 (mes d) ++ zfill 2 (dia d).

Definition nl : str := [10].

(** The f-string of [__init__] that becomes [self.system_prompt]. *)
Definition montar_system_prompt (base_system_prompt : str) (hoje : data) : str :=
  let data_atual := strftime_dmY hoje in
  let data_atual_yyyymmdd := strftime_Ymd hoje in
  let data_30_dias := strftime_Ymd (mais_dias 30 hoje) in
  base_system_prompt ++ nl ++ nl ++ u "📅 CONTEXTO TEMPORAL IMPORTANTE:" ++ nl
  ++ u "Data atual: " ++ data_atual ++ u " (formato API: " ++ data_atual_yyyymmdd
  ++ u ")" ++ nl
  ++ u "Ao consultar editais no PNCP, a data final (dataFinal) DEVE ser maior ou igual à data atual."
  ++ nl
  ++ u "Para consultas futuras, calcule a data no formato YYYYMMDD a partir de hoje."
  ++ nl
  ++ u "Exemplos: 'próximo mês' use uma data 30-60 dias à frente, "
  ++ u "'este mês' use o final do mês atual, 'daqui 30 dias' = " ++ data_30_dias.

(** The message returned when the iteration budget runs out. *)
Definition erro_msg : str :=
  u "Desculpe, não consegui completar a tarefa. A consulta pode ser muito complexa ou "
  ++ u "pode haver um problema temporário. Tente: (1) reformular a pergunta de forma mais simples, "
  ++ u "(2) dividir em perguntas menores, ou (3) tentar novamente em alguns instantes.".

(** [l[-n:]] for [n > 0]. *)
Definition ultimos {A} (n : nat) (l : list A) : list A :=
  skipn (length l - n)%nat l.

Section Mundo.

(** The state of everything outside the agent: the model endpoint, the
    back ends of the tools, the files, the clock. *)
Variable World : Type.

(** [datetime.now()] *)
Variable now : World -> data.

(** [PromptLoader.load_prompt_file]: the parsed JSON file, or the
    [FileNotFoundError] / [ValueError] it raises. *)
Variable load_prompt_file : string -> World -> result (gmap string str).

(** [self.llm_with_tools.invoke(messages)]: the model's answer, or the
    exception of the transport. *)
Variable llm_with_tools_invoke :
  list message -> World -> result ai_message * World.

(** A [StructuredTool]: its name and its [invoke], which validates the
    arguments against the schema and runs the handler. *)
Record tool := { name : str; invoke : json -> World -> result str * World }.

(** [get_all_tools()] *)
Variable get_all_tools : World -> result (list tool).

(** [settings.OPENAI_API_KEY] *)
Variable OPENAI_API_KEY : str.

(** The attributes of a [ConversationalAgent] that the methods use. *)
Record agent := {
  tools : list tool;
  system_prompt : str;
  chat_history : list message
}.

(** The agent, the world around it, and a trace of the message lists the
    model has been invoked with (the code keeps no such list; it is
    there to state properties of the calls). *)
Record estado := {
  self : agent;
  mundo : World;
  invocacoes : list (list message)
}.

(** Code that may raise and may change the state; a raise keeps the
    changes made before it. *)
Definition M (A : Type) : Type := estado -> result A * estado.

#[local] Instance M_ret : MRet M := fun A a st => (Ok a, st).

#[local] Instance M_bind : MBind M := fun A B k m st =>
  match m st with
  | (Ok a, st') => k a st'
  | (Raise e, st') => (Raise e, st')
  end.

(** [try: m  except Exception as e: h e] *)
Definition try_except {A} (m : M A) (h : exception -> M A) : M A := fun st =>
  match m st with
  | (Ok a, st') => (Ok a, st')
  | (Raise e, st') => h e st'
  end.

(** An operation of the outside world, run on [mundo]. *)
Definition no_mundo {A} (f : World -> result A * World) : M A := fun st =>
  let (r, w) := f (mundo st) in
  (r, {| self := self st; mundo := w; invocacoes := invocacoes st |}).

Definition ler_self : M agent := fun st => (Ok (self st), st).

(** [self.chat_history = h] *)
Definition set_chat_history (h : list message) : M unit := fun st =>
  (Ok tt,
   {| self := {| tools := tools (self st);
                 system_prompt := system_prompt (self st);
                 chat_history := h |};
      mundo := mundo st;
      invocacoes := invocacoes st |}).

(** [PromptLoader.get_agent_prompts] *)
Definition get_agent_prompts : M (gmap string str) := fun st =>
  (load_prompt_file "agent_prompts.json" (mundo st), st).

(** [Settings.validate] *)
Definition validate : result bool :=
  if truthy OPENAI_API_KEY then Ok true
  else Raise (Exc "ValueError"
                  (u "OPENAI_API_KEY não configurada. "
                   ++ u "Por favor, configure a variável no arquivo .env")).

(** [ConversationalAgent.__init__], run in the world [w]; the base prompt
    is [prompt_loader.get_system_prompt()], that is
    [get_agent_prompts().get("system_prompt", "")]. *)
Definition init (w : World) : result agent :=
  _ ← validate;
  tools_ ← get_all_tools w;
  agent_prompts ← load_prompt_file "agent_prompts.json" w;
  let base_system_prompt := default [] (agent_prompts !! "system_prompt") in
  let hoje := now w in
  Ok {| tools := tools_;
        system_prompt := montar_system_prompt base_system_prompt hoje;
        chat_history := [] |}.

(** The [for tool in self.tools] loop of [_execute_tool]. *)
Fixpoint procurar_tool (ts : list tool) (tool_name : str) (tool_input : json)
    : M str :=
  match ts with
  | tool :: ts' =>
    if eqb (name tool) tool_name
    then try_except
           (result ← no_mundo (invoke tool tool_input); mret result)
           (fun e => mret (u "Erro ao executar ferramenta: " ++ mensagem e))
    else procurar_tool ts' tool_name tool_input
  | [] => mret (u "Ferramenta '" ++ tool_name ++ u "' não encontrada.")
  end.

Definition _execute_tool (tool_name : str) (tool_input : json) : M str :=
  self ← ler_self;
  procurar_tool (tools self) tool_name tool_input.

(** [self.llm_with_tools.invoke(messages)], recorded in the trace. *)
Definition invocar_llm (messages : list message) : M ai_message := fun st =>
  let (r, w) := llm_with_tools_invoke messages (mundo st) in
  (r, {| self := self st; mundo := w;
         invocacoes := invocacoes st ++ [messages] |}).

(** [for idx, tool_call in enumerate(response.tool_calls, 1)] *)
Fixpoint executar_tool_calls (tcs : list tool_call) (messages : list message)
    : M (list message) :=
  match tcs with
  | [] => mret messages
  | tool_call :: tcs' =>
    tool_output ← _execute_tool (tc_name tool_call) (tc_args tool_call);
    executar_tool_calls tcs'
      (messages ++ [ToolMessage tool_output (tc_id tool_call)])
  end.

(** The branch of a final answer: the two appends and the cut. *)
Definition memorizar (user_input output : str) : M unit :=
  self ← ler_self;
  let h := chat_history self ++ [HumanMessage user_input] in
  let h := h ++ [AIMessage output []] in
  if (20 <? length h)%nat
  then set_chat_history (ultimos 20 h)
  else set_chat_history h.

(** [for i in range(max_iterations)] with [n] iterations left, and the
    code after the loop. *)
Fixpoint iterar (n : nat) (user_input : str) (messages : list message) : M str :=
  match n with
  | O => mret erro_msg
  | S n' =>
    response ← invocar_llm messages;
    match tool_calls response with
    | [] =>
      let output := content response in
      _ ← memorizar user_input output;
      mret output
    | _ :: _ =>
      let messages := messages ++ [AIMessage (content response) (tool_calls response)] in
      messages ← executar_tool_calls (tool_calls response) messages;
      iterar n' user_input messages
    end
  end.

(** The [try] block of [chat]. *)
Definition chat_try (user_input : str) (max_iterations : Z) : M str :=
  self ← ler_self;
  let messages := [SystemMessage (system_prompt self)] in
  let messages := messages ++ chat_history self in
  let messages := messages ++ [HumanMessage user_input] in
  iterar (Z.to_nat max_iterations) user_input messages.

(** [ConversationalAgent.chat] *)
Definition chat (user_input : str) (max_iterations : Z) : M str :=
  try_except (chat_try user_input max_iterations)
    (fun e =>
       agent_prompts ← get_agent_prompts;
       mret (default (u "Desculpe, ocorreu um erro.")
                     (agent_prompts !! "error_message"))).

(** [ConversationalAgent.clear_history] *)
Definition clear_history : M unit := set_chat_history [].

(** The states of a session that owns the agent [a0]: the agent as it
    was built, then any sequence of [chat] and [clear_history] calls,
    with the world free to change between two calls (time passes). *)
Inductive alcancavel (a0 : agent) : estado -> Prop :=
| alc_inicio w :
    alcancavel a0 {| self := a0; mundo := w; invocacoes := [] |}
| alc_chat st user_input max_iterations :
    alcancavel a0 st ->
    alcancavel a0 (snd (chat user_input max_iterations st))
| alc_clear st :
    alcancavel a0 st ->
    alcancavel a0 (snd (clear_history st))
| alc_mundo st w :
    alcancavel a0 st ->
    alcancavel a0 {| self := self st; mundo := w; invocacoes := invocacoes st |}.

End Mundo.

Arguments name {World} t.
Arguments invoke {World} t _ _.
Arguments Build_tool {World} name invoke.
Arguments tools {World} a.
Arguments system_prompt {World} a.
Arguments chat_history {World} a.
Arguments Build_agent {World} tools system_prompt chat_history.
Arguments self {World} e.
Arguments mundo {World} e.
Arguments invocacoes {World} e.
Arguments Build_estado {World} self mundo invocacoes.
Arguments _execute_tool {World} tool_name tool_input _.
Arguments procurar_tool {World} ts tool_name tool_input _.
Arguments executar_tool_calls {World} tcs messages _.
Arguments invocar_llm {World} llm_with_tools_invoke messages _.
Arguments memorizar {World} user_input output _.
Arguments iterar {World} llm_with_tools_invoke n user_input messages _.
Arguments chat_try {World} llm_with_tools_invoke user_input max_iterations _.
Arguments chat {World} load_prompt_file llm_with_tools_invoke user_input max_iterations _.
Arguments clear_history {World} _.
Arguments set_chat_history {World} h _.
Arguments get_agent_prompts {World} load_prompt_file _.
Arguments init {World} now load_prompt_file get_all_tools OPENAI_API_KEY w.
Arguments alcancavel {World} load_prompt_file llm_with_tools_invoke a0 _.

(** The default of the parameter [max_iterations] of [chat]. *)
Definition max_iterations_padrao : Z := 15.


(** [ConversationalAgent.get_history] *)
Definition get_history {World} (a : agent World) : list json :=
  flat_map (fun msg =>
              match msg with
              | HumanMessage content =>
                [JDict [("role", JStr (u "user")); ("content", JStr content)]]
              | AIMessage content _ =>
                [JDict [("role", JStr (u "assistant")); ("content", JStr content)]]
              | _ => []
              end) (chat_history a).

(** The memory that a list of completed turns (question, answer) leaves. *)
Definition turnos (ts : list (str * str)) : list message :=
  flat_map (fun t => [HumanMessage (fst t); AIMessage (snd t) []]) ts.

End Agent.

(** ** src/prompts/loader.py *)

Module Loader.

(** [s.endswith(suf)] *)
Fixpoint endswith (suf s : string) : bool :=
  String.eqb s suf
  || match s with
     | EmptyString => false
     | String _ s' => endswith suf s'
     end.

(** [if not filename.endswith('.json'): filename += '.json'] *)
Definition com_extensao (filename : string) : string :=
  if endswith ".json" filename then filename else String.append filename ".json".

Section Arquivos.

Variable World : Type.

(** [self.prompts_dir / filename] *)
Variable caminho : string -> string.

(** [open(filepath, 'r', encoding='utf-8')] and [json.load(f)]: the parsed
    file, or the exception raised. *)
Variable abrir_json : string -> World -> result (gmap string str).

(** [PromptLoader.load_prompt_file] *)
Definition load_prompt_file (filename : string) (w : World)
    : result (gmap string str) :=
  let filename := com_extensao filename in
  let filepath := caminho filename in
  match abrir_json filepath w with
  | Ok prompts => Ok prompts
  | Raise e =>
    if String.eqb (classe e) "FileNotFoundError"
    then Raise (Exc "FileNotFoundError"
                    (u "Arquivo de prompt não encontrado: " ++ u filepath))
    else if String.eqb (classe e) "JSONDecodeError"
    then Raise (Exc "ValueError"
                    (u "Erro ao decodificar JSON do arquivo " ++ u filepath
                     ++ u ": " ++ mensagem e))
    else Raise e
  end.

(** [PromptLoader.get_agent_prompts] *)
Definition get_agent_prompts (w : World) : result (gmap string str) :=
  load_prompt_file "agent_prompts.json" w.

(** [PromptLoader.get_tool_prompts] *)
Definition get_tool_prompts (w : World) : result (gmap string str) :=
  load_prompt_file "tool_prompts.json" w.

(** [PromptLoader.get_system_prompt] *)
Definition get_system_prompt (w : World) : result str :=
  agent_prompts ← get_agent_prompts w;
  Ok (default [] (agent_prompts !! "system_prompt")).

(** [PromptLoader.get_welcome_message] *)
Definition get_welcome_message (w : World) : result str :=
  agent_prompts ← get_agent_prompts w;
  Ok (default (u "Olá! Como posso ajudá-lo?") (agent_prompts !! "welcome_message")).

End Arquivos.

Arguments load_prompt_file {World} caminho abrir_json filename w.
Arguments get_agent_prompts {World} caminho abrir_json w.
Arguments get_tool_prompts {World} caminho abrir_json w.
Arguments get_system_prompt {World} caminho abrir_json w.
Arguments get_welcome_message {World} caminho abrir_json w.

End Loader.

(** ** Concrete sessions, used to run the definitions *)

Module Exemplo.

Import Agent.

(** A world that is only a clock. *)
Definition World : Type := data.
Definition now (w : World) : data := w.

Definition agent_prompts : gmap string str :=
  <["error_message" := u "Desculpe, ocorreu um erro ao processar sua mensagem."]>
    (<["system_prompt" := u "Você é o ContratAI."]> ∅).

Definition load_prompt_file (filename : string) (w : World)
    : result (gmap string str) :=
  if String.eqb filename "agent_prompts.json" then Ok agent_prompts
  else Raise (Exc "FileNotFoundError" (u "Arquivo de prompt não encontrado")).

(** A registry of two tools: one answers, one fails in its handler. *)
Definition ferramentas : list (tool World) :=
  [ {| name := u "ConsultarModalidade";
       invoke := fun _ w => (Ok (u "{}"), w) |};
    {| name := u "ConsultarEditaisPNCP";
       invoke := fun _ w => (Raise (Exc "ValidationError" (u "data_final: Field required")), w) |} ].

Definition get_all_tools (w : World) : result (list (tool World)) := Ok ferramentas.

Definition OPENAI_API_KEY : str := u "sk-teste".

(** A model that answers at once. *)
Definition llm_direto (messages : list message) (w : World)
    : result ai_message * World :=
  (Ok {| content := u "Olá!"; tool_calls := [] |}, w).

(** A scripted model that asks for a tool on every round. *)
Definition llm_insistente (messages : list message) (w : World)
    : result ai_message * World :=
  (Ok {| content := [];
         tool_calls := [ {| tc_name := u "ConsultarModalidade";
                            tc_args := JDict [("nome", JStr (u "pregão"))];
                            tc_id := u "call_1" |} ] |}, w).

(** A model whose transport fails. *)
Definition llm_falha (messages : list message) (w : World)
    : result ai_message * World :=
  (Raise (Exc "APIConnectionError" (u "Connection error.")), w).

Definition dia1 : World := {| ano := 2026; mes := 1; dia := 15 |}.
Definition dia2 : World := {| ano := 2026; mes := 3; dia := 1 |}.

(** The agent built on [dia1]. *)
Definition agente1 : agent World :=
  {| tools := ferramentas;
     system_prompt := montar_system_prompt (u "Você é o ContratAI.") dia1;
     chat_history := [] |}.

Definition inicio (w : World) : estado World :=
  {| self := agente1; mundo := w; invocacoes := [] |}.

(** The session after [n] questions answered by [llm_direto]. *)
Definition apos (n : nat) : estado World :=
  Nat.iter n (fun st => snd (chat load_prompt_file llm_direto (u "Oi") 15 st))
           (inicio dia1).

(** A table of two states. *)
Definition sudeste : UF.regiao :=
  {| UF.r_id := 3; UF.r_sigla := u "SE"; UF.r_nome := u "Sudeste" |}.
Definition sao_paulo : UF.estado :=
  {| UF.e_id := 35; UF.e_sigla := u "SP"; UF.e_nome := u "São Paulo";
     UF.e_regiao := sudeste |}.
Definition rio_de_janeiro : UF.estado :=
  {| UF.e_id := 33; UF.e_sigla := u "RJ"; UF.e_nome := u "Rio de Janeiro";
     UF.e_regiao := sudeste |}.
Definition estados : list UF.estado := [rio_de_janeiro; sao_paulo].

(** A table of sixty municipalities named "Vila 0" ... "Vila 5" (ten of
    each), all in one state. *)
Definition uf_sp : Municipio.uf :=
  {| Municipio.uf_id := Some 35%Z; Municipio.uf_sigla := Some (u "SP");
     Municipio.uf_nome := Some (u "São Paulo") |}.
Definition vila (i : nat) : Municipio.municipio :=
  {| Municipio.m_id := (3500000 + Z.of_nat i)%Z;
     Municipio.m_nome := u "Vila " ++ [48 + N.of_nat (i / 10)];
     Municipio.m_microrregiao :=
       Municipio.Presente
         {| Municipio.micro_nome := Some (u "Micro");
            Municipio.micro_mesorregiao :=
              Municipio.Presente
                {| Municipio.meso_nome := Some (u "Meso");
                   Municipio.meso_UF := Municipio.Presente uf_sp |} |} |}.
Definition vilas : list Municipio.municipio := map vila (seq 0 60).

(** A model that asks for one tool on its first round and answers on the
    second: the working list then holds a tool result. *)
Definition llm_uma_ferramenta (messages : list message) (w : World)
    : result ai_message * World :=
  if existsb (fun m => match m with ToolMessage _ _ => true | _ => false end) messages
  then (Ok {| content := u "Encontrei."; tool_calls := [] |}, w)
  else llm_insistente messages w.

(** Answers of the PNCP endpoint: two records, a server error, a timeout. *)
Definition corpo_editais : json :=
  JDict [("totalRegistros", JInt 2);
         ("totalPaginas", JInt 1);
         ("data",
          JList [JDict [("numeroControlePNCP", JStr (u "00394460000141-1-000001/2026"));
                        ("modalidadeNome", JStr (u "Pregão - Eletrônico"));
                        ("orgaoEntidade", JDict [("cnpj", JStr (u "00394460000141"))])];
                 JDict [("numeroControlePNCP", JStr (u "00394460000141-1-000002/2026"))]])].

Definition get_200 (url : string) (ps : gmap string PNCP.valor)
    : result PNCP.response :=
  Ok {| PNCP.status_code := 200; PNCP.resp_json := Ok corpo_editais; PNCP.text := [] |}.

Definition get_500 (url : string) (ps : gmap string PNCP.valor)
    : result PNCP.response :=
  Ok {| PNCP.status_code := 500;
        PNCP.resp_json := Raise (Exc "JSONDecodeError" (u "Expecting value"));
        PNCP.text := u "Internal Server Error" |}.

Definition get_timeout (url : string) (ps : gmap string PNCP.valor)
    : result PNCP.response :=
  Raise (Exc "ReadTimeout" (u "Read timed out. (read timeout=30)")).

(** One record of the answer has [null] for its buying entity. *)
Definition get_200_nulo (url : string) (ps : gmap string PNCP.valor)
    : result PNCP.response :=
  Ok {| PNCP.status_code := 200;
        PNCP.resp_json :=
          Ok (JDict [("data", JList [JDict [("processo", JStr (u "1/2026"))];
                                     JDict [("orgaoEntidade", JNull)]])]);
        PNCP.text := [] |}.

Definition dumps (v : json) : str := u "{}".

(** A prompts directory with one file. *)
Definition abrir_json (filepath : string) (w : World) : result (gmap string str) :=
  if String.eqb filepath "prompts/agent_prompts.json" then Ok agent_prompts
  else Raise (Exc "FileNotFoundError" (u "No such file or directory")).

Definition caminho (filename : string) : string := String.append "prompts/" filename.


End Exemplo.

(** * Properties *)

(** ** Strings *)

Lemma startswith_app (p s : str) : startswith p (p ++ s) = true.
Proof.
  induction p as [|c p IH]; simpl; [reflexivity|].
  rewrite N.eqb_refl. exact IH.
Qed.

Lemma contains_unfold (sub s : str) :
  contains sub s =
  startswith sub s || match s with [] => false | _ :: s' => contains sub s' end.
Proof. destruct s; reflexivity. Qed.

Lemma contains_here (sub s : str) : contains sub (sub ++ s) = true.
Proof. rewrite contains_unfold, startswith_app. reflexivity. Qed.

Lemma contains_app_l (sub p s : str) :
  contains sub s = true -> contains sub (p ++ s) = true.
Proof.
  intros H. induction p as [|c p IH]; simpl; [exact H|].
  rewrite IH. apply orb_true_r.
Qed.

(** [sub in (p + sub + q)] *)
Lemma contains_middle (sub p q : str) : contains sub (p ++ sub ++ q) = true.
Proof. apply contains_app_l, contains_here. Qed.

(** [replace1 old ""] deletes every [old] and nothing else. *)
Lemma replace1_empty (old : N) (s : str) :
  replace1 old [] s = List.filter (fun c => negb (c =? old)) s.
Proof.
  unfold replace1.
  induction s as [|c s IH]; simpl; [reflexivity|].
  rewrite IH. destruct (c =? old); reflexivity.
Qed.

(** ** The procurement search: request parameters *)

Section PNCPProps.

Import PNCP.

Variables (data_final : str) (pagina : Z) (uf : option str)
          (codigo_modalidade : option Z) (codigo_municipio_ibge : option str).

Lemma se_str_outra (k k' : string) f x (ps : gmap string valor) :
  k <> k' -> se_str k f x ps !! k' = ps !! k'.
Proof.
  intros Hk. unfold se_str. destruct x as [[|c x]|]; try reflexivity.
  apply lookup_insert_ne. exact Hk.
Qed.

Lemma se_int_outra (k k' : string) x (ps : gmap string valor) :
  k <> k' -> se_int k x ps !! k' = ps !! k'.
Proof.
  intros Hk. unfold se_int. destruct x as [x|]; try reflexivity.
  destruct (x =? 0)%Z; try reflexivity.
  apply lookup_insert_ne. exact Hk.
Qed.

Lemma tamanho_valido_clamp (t : Z) :
  tamanho_valido t = (if t <? 10 then 10 else if 500 <? t then 500 else t)%Z.
Proof.
  unfold tamanho_valido.
  destruct (Z.eqb_spec t 0) as [->|Hz]; [reflexivity|].
  destruct (Z.ltb_spec t 10); destruct (Z.ltb_spec 500 t); lia.
Qed.

(** C8: whatever integer is given as [tamanho_pagina], the entry
    ["tamanhoPagina"] of the request parameters is that integer clamped
    into [10, 500]: 10 below 10 (the falsy 0 included), 500 above 500,
    the input itself in between. *)
Theorem tamanho_pagina_limitado (tamanho_pagina : Z) (cnpj : option str) :
  exists v : Z,
    params data_final pagina tamanho_pagina uf cnpj codigo_modalidade
           codigo_municipio_ibge !! "tamanhoPagina" = Some (VInt v)
    /\ v = (if tamanho_pagina <? 10 then 10
            else if 500 <? tamanho_pagina then 500 else tamanho_pagina)%Z
    /\ (10 <= v <= 500)%Z.
Proof.
  exists (tamanho_valido tamanho_pagina). split; [|split].
  - unfold params.
    rewrite se_str_outra by discriminate.
    rewrite se_int_outra by discriminate.
    rewrite !se_str_outra by discriminate.
    apply lookup_insert_eq.
  - apply tamanho_valido_clamp.
  - rewrite tamanho_valido_clamp.
    destruct (Z.ltb_spec tamanho_pagina 10);
      destruct (Z.ltb_spec 500 tamanho_pagina); lia.
Qed.

Lemma limpar_cnpj_filter (cnpj : str) :
  limpar_cnpj cnpj =
  List.filter (fun c => negb (c =? 46) && negb (c =? 47) && negb (c =? 45)) cnpj.
Proof.
  unfold limpar_cnpj. rewrite !replace1_empty.
  induction cnpj as [|c s IH]; simpl; [reflexivity|].
  destruct (c =? 46); simpl; [exact IH|].
  destruct (c =? 47); simpl; [exact IH|].
  destruct (c =? 45); simpl; [exact IH|].
  f_equal. exact IH.
Qed.

(** C9: for a non-empty [cnpj], the entry ["cnpj"] of the request
    parameters is the input with every '.', '/' and '-' deleted (and
    nothing else changed), so it holds none of the three characters. *)
Theorem cnpj_sem_pontuacao (tamanho_pagina : Z) (cnpj : str) :
  cnpj <> [] ->
  exists v : str,
    params data_final pagina tamanho_pagina uf (Some cnpj) codigo_modalidade
           codigo_municipio_ibge !! "cnpj" = Some (VStr v)
    /\ v = List.filter
             (fun c => negb (c =? 46) && negb (c =? 47) && negb (c =? 45)) cnpj
    /\ ~ In 46 v /\ ~ In 47 v /\ ~ In 45 v.
Proof.
  intros Hne. exists (limpar_cnpj cnpj). split; [|split].
  - unfold params.
    rewrite se_str_outra by discriminate.
    rewrite se_int_outra by discriminate.
    destruct cnpj as [|c s]; [congruence|].
    apply lookup_insert_eq.
  - apply limpar_cnpj_filter.
  - rewrite limpar_cnpj_filter.
    repeat split; intros Hin; apply filter_In in Hin as [_ Hin];
      vm_compute in Hin; discriminate.
Qed.

End PNCPProps.

Lemma cnpj_sem_pontuacao_witness :
  u "12.345.678/0001-90" <> []
  /\ exists v : str,
       PNCP.params (u "20260220") 1 10 None (Some (u "12.345.678/0001-90")) None None
         !! "cnpj" = Some (PNCP.VStr v)
       /\ v = List.filter
                (fun c => negb (c =? 46) && negb (c =? 47) && negb (c =? 45))
                (u "12.345.678/0001-90")
       /\ ~ In 46 v /\ ~ In 47 v /\ ~ In 45 v.
Proof.
  split; [discriminate|].
  apply (cnpj_sem_pontuacao (u "20260220") 1 None None None 10 (u "12.345.678/0001-90")).
  discriminate.
Defined.

Example cnpj_exemplo :
  PNCP.limpar_cnpj (u "12.345.678/0001-90") = u "12345678000190".
Proof. reflexivity. Qed.

Example tamanho_exemplos :
  PNCP.tamanho_valido 5 = 10%Z /\ PNCP.tamanho_valido 9999 = 500%Z
  /\ PNCP.tamanho_valido 0 = 10%Z /\ PNCP.tamanho_valido (-3) = 10%Z
  /\ PNCP.tamanho_valido 42 = 42%Z.
Proof. repeat split. Qed.

(** ** The modality lookup *)

(** C4, as the code has it: a query whose normal form (lower case, hyphens
    and runs of white space turned into one space) is the accented word
    "pregão" gets the success payload with exactly the two records
    "Pregão - Eletrônico" and "Pregão - Presencial".  Accents are not
    normalized. *)
Theorem consultar_modalidade_pregao (nome : str) :
  Modalidade.normalizar nome = u "pregão" ->
  Modalidade.consultar_modalidade (Some nome) =
  JDict [("success", JBool true);
         ("total_encontrados", JInt 2);
         ("modalidades",
          JList [JDict [("codigo", JInt 6); ("nome", JStr (u "Pregão - Eletrônico"));
                        ("tipo", JStr (u "Pregão"))];
                 JDict [("codigo", JInt 7); ("nome", JStr (u "Pregão - Presencial"));
                        ("tipo", JStr (u "Pregão"))]])].
Proof.
  intros H.
  destruct nome as [|c nome]; [vm_compute in H; discriminate|].
  unfold Modalidade.consultar_modalidade, Modalidade.resultados_modalidade.
  rewrite H. reflexivity.
Qed.

Lemma consultar_modalidade_pregao_witness :
  Modalidade.normalizar (u "  PREGÃO - ") = u "pregão"
  /\ campo_de "total_encontrados"
       (Modalidade.consultar_modalidade (Some (u "  PREGÃO - "))) = Some (JInt 2).
Proof.
  split; [reflexivity|].
  rewrite (consultar_modalidade_pregao (u "  PREGÃO - ")); reflexivity.
Defined.

(** C4, as the specification words it, fails: the unaccented query
    "pregao" matches no record, and the answer is the not-found payload. *)
Lemma consultar_modalidade_pregao_sem_acento :
  Modalidade.resultados_modalidade (Some (u "pregao")) = []
  /\ campo_de "success" (Modalidade.consultar_modalidade (Some (u "pregao")))
     = Some (JBool false)
  /\ campo_de "modalidades" (Modalidade.consultar_modalidade (Some (u "pregao")))
     = None.
Proof. repeat split. Qed.

Example modalidade_exemplos :
  map Modalidade.codigo (Modalidade.resultados_modalidade None)
    = [1; 4; 5; 6; 7; 8; 9; 11; 12; 13]%Z
  /\ map Modalidade.codigo (Modalidade.resultados_modalidade (Some []))
    = [1; 4; 5; 6; 7; 8; 9; 11; 12; 13]%Z
  /\ map Modalidade.codigo (Modalidade.resultados_modalidade (Some (u "Pregão")))
    = [6; 7]%Z
  /\ map Modalidade.codigo (Modalidade.resultados_modalidade (Some (u "eletr")))
    = [1; 4; 6]%Z
  /\ map Modalidade.codigo (Modalidade.resultados_modalidade (Some (u "dispensa")))
    = [8]%Z.
Proof. repeat split. Qed.

(** ** The state lookup *)

Section UFProps.

Import UF.

Variable arquivo_estados : option (list estado).

Lemma resultados_uf_prioridade (estados : list estado)
    (id : option Z) (sigla nome regiao_nome : option str) :
  resultados_uf estados id sigla nome regiao_nome =
  match filtro_prioritario id sigla nome regiao_nome with
  | Some f => List.filter (satisfaz f) estados
  | None => estados
  end.
Proof.
  unfold resultados_uf, filtro_prioritario, fornecido.
  destruct id as [id|]; [reflexivity|].
  destruct sigla as [[|c1 s1]|]; destruct nome as [[|c2 s2]|];
    destruct regiao_nome as [[|c3 s3]|]; reflexivity.
Qed.

(** C6: [consultar_uf] applies one filter, the first supplied one in the
    order id, sigla (exact, upper-cased), nome (case-insensitive
    substring), regiao_nome (case-insensitive substring); a text argument
    counts as supplied when it is not empty.  So with an id the other
    three arguments do not matter, and with no filter the whole table is
    returned. *)
Theorem consultar_uf_prioridade :
  (forall id sigla nome regiao_nome,
      consultar_uf arquivo_estados id sigla nome regiao_nome
      = consultar_uf_spec arquivo_estados id sigla nome regiao_nome)
  /\ (forall id sigla nome regiao_nome,
      consultar_uf arquivo_estados (Some id) sigla nome regiao_nome
      = consultar_uf arquivo_estados (Some id) None None None)
  /\ (forall e es,
      consultar_uf (Some (e :: es)) None None None None
      = JDict [("success", JBool true);
               ("total_encontrados", jlen (e :: es));
               ("estados", JList (map estado_json (e :: es)))]).
Proof.
  split; [|split].
  - intros id sigla nome regiao_nome.
    unfold consultar_uf, consultar_uf_spec.
    destruct (carregar_estados_brasil arquivo_estados) as [|e es]; [reflexivity|].
    rewrite resultados_uf_prioridade. reflexivity.
  - intros id sigla nome regiao_nome. reflexivity.
  - intros e es. reflexivity.
Qed.

End UFProps.

(** With both an id and a name, the id decides: 35 is São Paulo, whatever
    the name says. *)
Example consultar_uf_id_e_nome :
  UF.consultar_uf (Some Exemplo.estados) (Some 35%Z) None (Some (u "rio")) None
  = JDict [("success", JBool true);
           ("total_encontrados", JInt 1);
           ("estados", JList [UF.estado_json Exemplo.sao_paulo])]
  /\ UF.consultar_uf (Some Exemplo.estados) None None (Some (u "rio")) None
  = JDict [("success", JBool true);
           ("total_encontrados", JInt 1);
           ("estados", JList [UF.estado_json Exemplo.rio_de_janeiro])]
  /\ UF.consultar_uf (Some Exemplo.estados) None (Some (u " sp")) (Some (u "rio")) None
  = JDict [("success", JBool true);
           ("total_encontrados", JInt 1);
           ("estados", JList [UF.estado_json Exemplo.sao_paulo])]
  /\ UF.consultar_uf (Some Exemplo.estados) None (Some []) None (Some (u "SUDESTE"))
  = JDict [("success", JBool true);
           ("total_encontrados", JInt 2);
           ("estados", JList (map UF.estado_json Exemplo.estados))].
Proof. repeat split. Qed.

(** ** The municipality lookup *)

Section MunicipioProps.

Import Municipio.

Lemma mapM_length {A B} (f : A -> result B) (l : list A) (ys : list B) :
  mapM f l = Ok ys -> length ys = length l.
Proof.
  revert ys. induction l as [|x l IH]; simpl; intros ys H.
  - injection H as <-. reflexivity.
  - unfold mbind, result_bind in H.
    destruct (f x) as [y|e]; [|discriminate].
    destruct (mapM f l) as [ys'|e]; [|discriminate].
    injection H as <-. simpl. f_equal. apply IH. reflexivity.
Qed.

(** A compact row keeps the IBGE code and the name of its municipality. *)
Lemma formatar_id_nome (m : municipio) (j : json) :
  formatar m = Ok j ->
  campo_de "id" j = Some (JInt (m_id m))
  /\ campo_de "nome" j = Some (JStr (m_nome m)).
Proof.
  unfold formatar, mbind, result_bind. intros H.
  repeat match type of H with
         | match ?r with Ok _ => _ | Raise _ => _ end = _ =>
           destruct r; [|discriminate]
         end.
  injection H as <-. split; reflexivity.
Qed.

(** The rows of the answer are those of the selected municipalities, one
    for one and in the same order. *)
Lemma mapM_formatar_ordem (l : list municipio) (linhas : list json) :
  mapM formatar l = Ok linhas ->
  map (campo_de "id") linhas = map (fun m => Some (JInt (m_id m))) l.
Proof.
  revert linhas. induction l as [|m l IH]; simpl; intros linhas H.
  - injection H as <-. reflexivity.
  - unfold mbind, result_bind in H.
    destruct (formatar m) as [j|e] eqn:Hm; [|discriminate].
    destruct (mapM formatar l) as [js|e]; [|discriminate].
    injection H as <-. simpl.
    rewrite (proj1 (formatar_id_nome m j Hm)). f_equal. apply IH. reflexivity.
Qed.


End MunicipioProps.


(** A row whose ["microrregiao"] is [null] passes the name filter, and
    building its compact row then raises; with the key missing, the row is
    built with [null] fields. *)
Example formatar_microrregiao_nula :
  Municipio.formatar
    {| Municipio.m_id := 5101837; Municipio.m_nome := u "Boa Esperança do Norte";
       Municipio.m_microrregiao := Municipio.Nulo |}
  = Raise Municipio.attribute_error
  /\ Municipio.formatar
       {| Municipio.m_id := 5101837; Municipio.m_nome := u "Boa Esperança do Norte";
          Municipio.m_microrregiao := Municipio.Ausente |}
     = Ok (JDict [("id", JInt 5101837);
                  ("nome", JStr (u "Boa Esperança do Norte"));
                  ("uf", JDict [("id", JNull); ("sigla", JNull); ("nome", JNull)]);
                  ("microrregiao", JNull);
                  ("mesorregiao", JNull)]).
Proof. split; reflexivity. Qed.

(** The name search takes part of the word and ignores case; the first
    match of a short search is the first row of the table that holds it. *)
Example consultar_municipio_exemplos :
  option_map (map Municipio.m_id)
    (Municipio.resultados_municipio Exemplo.vilas None (Some (u "VILA 5")) None None)
  = Some (map (fun i => (3500000 + Z.of_nat i)%Z) (seq 50 10))
  /\ option_map (map Municipio.m_id)
       (Municipio.resultados_municipio Exemplo.vilas (Some 3500007%Z) (Some (u "VILA 5")) None None)
     = Some [3500007%Z]
  /\ option_map (@length _)
       (Municipio.resultados_municipio Exemplo.vilas None None (Some 35%Z) None)
     = Some 60%nat
  /\ option_map (@length _)
       (Municipio.resultados_municipio Exemplo.vilas None None None (Some (u "sp ")))
     = Some 60%nat.
Proof. repeat split. Qed.

(** ** The agent *)

Section AgentProps.

Import Agent.

Context {World : Type}.
Variable now : World -> data.
Variable load_prompt_file : string -> World -> result (gmap string str).
Variable llm : list message -> World -> result ai_message * World.
Variable get_all_tools : World -> result (list (tool World)).
Variable OPENAI_API_KEY : str.

Ltac monad :=
  unfold mbind, M_bind, mret, M_ret, try_except, no_mundo, ler_self,
    set_chat_history, get_agent_prompts in *.

Lemma estado_eta (st : estado World) :
  {| self := self st; mundo := mundo st; invocacoes := invocacoes st |} = st.
Proof. destruct st; reflexivity. Qed.

(** *** Tool invocation *)

(** The message of an unknown tool holds the name it was asked for. *)
Lemma nao_encontrada_contem (tool_name : str) :
  contains tool_name (u "Ferramenta '" ++ tool_name ++ u "' não encontrada.") = true.
Proof. apply contains_middle. Qed.

(** What the search through the registry returns: it always returns, it
    leaves the agent alone, and its text is decided by the first tool of
    that name. *)
Lemma procurar_tool_spec (ts : list (tool World)) (tool_name : str)
    (tool_input : json) (st : estado World) :
  exists out w',
    procurar_tool ts tool_name tool_input st
    = (Ok out, {| self := self st; mundo := w'; invocacoes := invocacoes st |})
    /\ match List.find (fun t => eqb (name t) tool_name) ts with
       | None =>
         w' = mundo st
         /\ out = u "Ferramenta '" ++ tool_name ++ u "' não encontrada."
       | Some t =>
         match invoke t tool_input (mundo st) with
         | (Ok result, w) => out = result /\ w' = w
         | (Raise e, w) =>
           out = u "Erro ao executar ferramenta: " ++ mensagem e /\ w' = w
         end
       end.
Proof.
  induction ts as [|t ts IH]; simpl.
  - monad. eexists _, (mundo st). rewrite estado_eta. eauto.
  - destruct (eqb (name t) tool_name); [|exact IH].
    monad. destruct (invoke t tool_input (mundo st)) as [[result|e] w]; eauto.
Qed.

(** C5: [_execute_tool] always returns a text and never raises.  When no
    tool of the registry has the name, the text is
    "Ferramenta '<name>' não encontrada.", which holds the name, and
    nothing else happens; when the first tool of that name raises, the
    exception is caught and the text is "Erro ao executar ferramenta: "
    followed by its message. *)
Theorem execute_tool_nunca_levanta (tool_name : str) (tool_input : json)
    (st : estado World) :
  exists out w',
    _execute_tool tool_name tool_input st
    = (Ok out, {| self := self st; mundo := w'; invocacoes := invocacoes st |})
    /\ match List.find (fun t => eqb (name t) tool_name) (tools (self st)) with
       | None =>
         w' = mundo st
         /\ out = u "Ferramenta '" ++ tool_name ++ u "' não encontrada."
         /\ contains tool_name out = true
       | Some t =>
         match invoke t tool_input (mundo st) with
         | (Ok result, w) => out = result /\ w' = w
         | (Raise e, w) =>
           out = u "Erro ao executar ferramenta: " ++ mensagem e /\ w' = w
         end
       end.
Proof.
  unfold _execute_tool. monad.
  destruct (procurar_tool_spec (tools (self st)) tool_name tool_input st)
    as (out & w' & Hrun & Hout).
  exists out, w'. split; [exact Hrun|].
  destruct (List.find _ _); [exact Hout|].
  destruct Hout as [Hw ->]. auto using nao_encontrada_contem.
Qed.

(** No tool of the registry has the name exactly when the search finds
    none. *)
Lemma find_nome_none (ts : list (tool World)) (tool_name : str) :
  List.find (fun t => eqb (name t) tool_name) ts = None
  <-> (forall t, In t ts -> name t <> tool_name).
Proof.
  unfold eqb. induction ts as [|t ts IH]; simpl.
  - split; [intros _ t [] | reflexivity].
  - destruct (bool_decide_reflect (name t = tool_name)) as [Heq|Hne].
    + split; [discriminate|]. intros H. exfalso. apply (H t); auto.
    + rewrite IH. split.
      * intros H t' [<-|Hin]; auto.
      * intros H t' Hin. apply H. auto.
Qed.

Lemma execute_tool_self (tool_name : str) (tool_input : json) (st : estado World) :
  exists out w',
    _execute_tool tool_name tool_input st
    = (Ok out, {| self := self st; mundo := w'; invocacoes := invocacoes st |}).
Proof.
  unfold _execute_tool. monad.
  destruct (procurar_tool_spec (tools (self st)) tool_name tool_input st)
    as (out & w' & Hrun & _).
  eauto.
Qed.

(** *** The loop *)

(** Running the tool calls of one round always returns; it only appends
    to the working list and leaves the agent and the trace alone. *)
Lemma executar_tool_calls_spec (tcs : list tool_call) (messages : list message)
    (st : estado World) :
  exists extra w',
    executar_tool_calls tcs messages st
    = (Ok (messages ++ extra),
       {| self := self st; mundo := w'; invocacoes := invocacoes st |}).
Proof.
  revert messages st. induction tcs as [|tc tcs IH]; intros messages st; simpl.
  - monad. exists [], (mundo st). rewrite app_nil_r, estado_eta. reflexivity.
  - destruct (execute_tool_self (tc_name tc) (tc_args tc) st) as (out & w1 & H1).
    unfold mbind, M_bind. rewrite H1.
    destruct (IH (messages ++ [ToolMessage out (tc_id tc)])
                 {| self := self st; mundo := w1; invocacoes := invocacoes st |})
      as (extra & w2 & H2).
    rewrite H2. simpl.
    exists (ToolMessage out (tc_id tc) :: extra), w2.
    rewrite <- app_assoc. reflexivity.
Qed.

Lemma ultimos_curto {A} (n : nat) (l : list A) :
  (length l <= n)%nat -> ultimos n l = l.
Proof.
  intros H. unfold ultimos.
  replace (length l - n)%nat with 0%nat by lia. reflexivity.
Qed.


(** The final-answer branch stores the last 20 entries of the memory
    extended by the user turn and the answer. *)
Lemma memorizar_spec (user_input output : str) (st : estado World) :
  memorizar user_input output st
  = (Ok tt,
     {| self := {| tools := tools (self st);
                   system_prompt := system_prompt (self st);
                   chat_history :=
                     ultimos 20 (chat_history (self st)
                                 ++ [HumanMessage user_input; AIMessage output []]) |};
        mundo := mundo st;
        invocacoes := invocacoes st |}).
Proof.
  unfold memorizar. monad.
  rewrite <- app_assoc.
  change ([HumanMessage user_input] ++ [AIMessage output []])
    with [HumanMessage user_input; AIMessage output []].
  destruct (Nat.ltb_spec 20
              (length (chat_history (self st)
                       ++ [HumanMessage user_input; AIMessage output []])))
    as [Hgt|Hle]; [reflexivity|].
  rewrite ultimos_curto by exact Hle. reflexivity.
Qed.

(** One iteration of the loop, written out. *)
Lemma iterar_S (n : nat) (user_input : str) (messages : list message)
    (st : estado World) :
  iterar llm (S n) user_input messages st =
  let st1 w := {| self := self st; mundo := w;
                  invocacoes := invocacoes st ++ [messages] |} in
  match llm messages (mundo st) with
  | (Raise e, w) => (Raise e, st1 w)
  | (Ok response, w) =>
    match tool_calls response with
    | [] =>
      match memorizar user_input (content response) (st1 w) with
      | (Ok _, st2) => (Ok (content response), st2)
      | (Raise e, st2) => (Raise e, st2)
      end
    | _ :: _ =>
      match executar_tool_calls (tool_calls response)
              (messages ++ [AIMessage (content response) (tool_calls response)])
              (st1 w) with
      | (Ok messages', st2) => iterar llm n user_input messages' st2
      | (Raise e, st2) => (Raise e, st2)
      end
    end
  end.
Proof.
  simpl. unfold mbind at 1, M_bind at 1, invocar_llm.
  destruct (llm messages (mundo st)) as [[response|e] w]; [|reflexivity].
  destruct (tool_calls response); reflexivity.
Qed.

(** What a run of the loop does to the state, whatever the model and the
    tools do: the tools and the system prompt of the agent stay; every
    list the model is invoked with extends the list the loop started
    from; and the memory is either untouched or, when an answer [output]
    is returned, extended by the turn and cut to its last 20 entries. *)
Lemma iterar_spec (n : nat) (user_input : str) (messages : list message)
    (st : estado World) :
  exists r st',
    iterar llm n user_input messages st = (r, st')
    /\ tools (self st') = tools (self st)
    /\ system_prompt (self st') = system_prompt (self st)
    /\ (exists novas,
          invocacoes st' = invocacoes st ++ novas
          /\ Forall (fun ms => exists extra, ms = messages ++ extra) novas)
    /\ (chat_history (self st') = chat_history (self st)
        \/ exists output,
            r = Ok output
            /\ chat_history (self st')
               = ultimos 20 (chat_history (self st)
                             ++ [HumanMessage user_input; AIMessage output []])).
Proof.
  revert messages st. induction n as [|n IH]; intros messages st.
  - simpl. monad. exists (Ok erro_msg), st. repeat split; auto.
    exists []. rewrite app_nil_r. auto.
  - rewrite iterar_S. cbv zeta.
    assert (Hm : Forall (fun ms => exists extra, ms = messages ++ extra) [messages]).
    { constructor; [|constructor]. exists []. rewrite app_nil_r. reflexivity. }
    destruct (llm messages (mundo st)) as [[response|e] w].
    + destruct (tool_calls response) as [|tc tcs] eqn:Htc.
      * rewrite memorizar_spec.
        eexists _, _. split; [reflexivity|]. simpl. repeat split; eauto.
      * cbv beta iota. rewrite <- Htc.
        match goal with
        | |- context [executar_tool_calls ?a ?b ?c] =>
          destruct (executar_tool_calls_spec a b c) as (extra & w2 & H2)
        end.
        rewrite H2.
        match goal with
        | |- context [iterar llm n user_input ?m ?s] =>
          destruct (IH m s) as (r & st' & Hrun & Ht & Hp & (novas & Hinv & Hnovas) & Hh)
        end.
        exists r, st'. simpl in *.
        split; [exact Hrun|]. split; [exact Ht|]. split; [exact Hp|]. split.
        -- exists (messages :: novas). split.
           ++ rewrite Hinv, <- app_assoc. reflexivity.
           ++ constructor.
              ** exists []. rewrite app_nil_r. reflexivity.
              ** eapply Forall_impl; [exact Hnovas|].
                 intros ms [extra' ->]. rewrite <- !app_assoc. eauto.
        -- exact Hh.
    + eexists _, _. split; [reflexivity|]. simpl. repeat split; eauto.
Qed.

(** With a model that asks for a tool on every round, the loop runs all
    its [n] iterations, one model call each, then returns the exhaustion
    message; the agent is as before. *)
Lemma iterar_insistente (n : nat) (user_input : str) (messages : list message)
    (st : estado World) :
  (forall ms w, exists response w',
      llm ms w = (Ok response, w') /\ tool_calls response <> []) ->
  exists st',
    iterar llm n user_input messages st = (Ok erro_msg, st')
    /\ self st' = self st
    /\ length (invocacoes st') = (length (invocacoes st) + n)%nat.
Proof.
  intros Hllm. revert messages st.
  induction n as [|n IH]; intros messages st.
  - simpl. monad. exists st. repeat split. lia.
  - rewrite iterar_S. cbv zeta.
    destruct (Hllm messages (mundo st)) as (response & w & Hr & Htc).
    rewrite Hr.
    destruct (tool_calls response) as [|tc tcs] eqn:Heq; [congruence|].
    cbv beta iota. rewrite <- Heq.
    match goal with
    | |- context [executar_tool_calls ?a ?b ?c] =>
      destruct (executar_tool_calls_spec a b c) as (extra & w2 & H2)
    end.
    rewrite H2.
    match goal with
    | |- context [iterar llm n user_input ?m ?s] =>
      destruct (IH m s) as (st' & Hrun & Hself & Hlen)
    end.
    exists st'. simpl in *. split; [exact Hrun|]. split; [exact Hself|].
    rewrite Hlen, length_app. simpl. lia.
Qed.

(** *** [chat] *)

(** The list of messages a call starts from. *)
Lemma chat_try_iterar (user_input : str) (max_iterations : Z) (st : estado World) :
  chat_try llm user_input max_iterations st
  = iterar llm (Z.to_nat max_iterations) user_input
      (SystemMessage (system_prompt (self st))
         :: chat_history (self st) ++ [HumanMessage user_input]) st.
Proof. reflexivity. Qed.

(** What a call of [chat] does to the state, whatever the model and the
    tools do. *)
Lemma chat_spec (user_input : str) (max_iterations : Z) (st : estado World) :
  exists r st',
    chat load_prompt_file llm user_input max_iterations st = (r, st')
    /\ tools (self st') = tools (self st)
    /\ system_prompt (self st') = system_prompt (self st)
    /\ (exists novas,
          invocacoes st' = invocacoes st ++ novas
          /\ Forall (fun ms => head ms = Some (SystemMessage (system_prompt (self st))))
                    novas)
    /\ (chat_history (self st') = chat_history (self st)
        \/ exists output,
            r = Ok output
            /\ chat_history (self st')
               = ultimos 20 (chat_history (self st)
                             ++ [HumanMessage user_input; AIMessage output []])).
Proof.
  unfold chat, try_except. rewrite chat_try_iterar.
  match goal with
  | |- context [iterar llm ?n user_input ?m st] =>
    destruct (iterar_spec n user_input m st)
      as (r & st' & Hrun & Ht & Hp & (novas & Hinv & Hnovas) & Hh)
  end.
  rewrite Hrun.
  assert (Hhead : exists novas0,
             invocacoes st' = invocacoes st ++ novas0
             /\ Forall (fun ms => head ms = Some (SystemMessage (system_prompt (self st))))
                       novas0).
  { exists novas. split; [exact Hinv|].
    eapply Forall_impl; [exact Hnovas|]. intros ms [extra ->]. reflexivity. }
  destruct r as [output|e].
  - exists (Ok output), st'. auto.
  - monad.
    destruct Hh as [Hh|(output & Hr & _)]; [|discriminate].
    destruct (load_prompt_file "agent_prompts.json" (mundo st')) as [prompts|e'];
      eexists _, st'; (split; [reflexivity|]); auto.
Qed.

(** C1: with a scripted model that asks for a tool on every round, a call
    of [chat] with [max_iterations] rounds (15 when the caller gives
    none) invokes the model exactly [max_iterations] times, then returns
    the exhaustion message, and the conversation memory is as it was
    before the call. *)
Theorem chat_esgota (user_input : str) (max_iterations : Z) (st : estado World) :
  (forall ms w, exists response w',
      llm ms w = (Ok response, w') /\ tool_calls response <> []) ->
  (0 <= max_iterations)%Z ->
  exists st',
    chat load_prompt_file llm user_input max_iterations st = (Ok erro_msg, st')
    /\ chat_history (self st') = chat_history (self st)
    /\ Z.of_nat (length (invocacoes st'))
       = (Z.of_nat (length (invocacoes st)) + max_iterations)%Z.
Proof.
  intros Hllm Hmax.
  unfold chat, try_except. rewrite chat_try_iterar.
  match goal with
  | |- context [iterar llm ?n user_input ?m st] =>
    destruct (iterar_insistente n user_input m st Hllm) as (st' & Hrun & Hself & Hlen)
  end.
  rewrite Hrun. exists st'. split; [reflexivity|]. split.
  - rewrite Hself. reflexivity.
  - rewrite Hlen. lia.
Qed.

(** The handler of [chat] when the agent prompts load in it: the
    ["error_message"] entry, or "Desculpe, ocorreu um erro." when there is
    no such entry, is returned, and the conversation memory is as it was
    before the call. *)
Lemma chat_excecao (user_input : str) (max_iterations : Z)
    (st st1 : estado World) (e : exception) (prompts : gmap string str) :
  chat_try llm user_input max_iterations st = (Raise e, st1) ->
  load_prompt_file "agent_prompts.json" (mundo st1) = Ok prompts ->
  chat load_prompt_file llm user_input max_iterations st
  = (Ok (default (u "Desculpe, ocorreu um erro.") (prompts !! "error_message")), st1)
  /\ chat_history (self st1) = chat_history (self st).
Proof.
  intros Hraise Hload. split.
  - unfold chat, try_except. rewrite Hraise. monad. rewrite Hload. reflexivity.
  - rewrite chat_try_iterar in Hraise.
    match type of Hraise with
    | iterar llm ?n user_input ?m st = _ =>
      destruct (iterar_spec n user_input m st)
        as (r & st' & Hrun & _ & _ & _ & Hh)
    end.
    rewrite Hraise in Hrun. injection Hrun as <- <-.
    destruct Hh as [Hh|(output & Hr & _)]; [exact Hh|discriminate].
Qed.

(** *** Sessions *)



(** What [__init__] stores: an empty memory and the system prompt built
    from the clock of that moment. *)
Lemma init_spec (w0 : World) (a0 : agent World) :
  init now load_prompt_file get_all_tools OPENAI_API_KEY w0 = Ok a0 ->
  chat_history a0 = []
  /\ exists prompts,
      load_prompt_file "agent_prompts.json" w0 = Ok prompts
      /\ system_prompt a0
         = montar_system_prompt (default [] (prompts !! "system_prompt")) (now w0).
Proof.
  unfold init, mbind, result_bind. intros H.
  destruct (validate OPENAI_API_KEY); [|discriminate].
  destruct (get_all_tools w0); [|discriminate].
  destruct (load_prompt_file "agent_prompts.json" w0) as [prompts|]; [|discriminate].
  injection H as <-. simpl. eauto.
Qed.

(** C2, as the code has it: the date and the +30-day date are read once,
    in [__init__], and written into the system prompt stored on the
    agent.  [chat] never rebuilds it: through the whole session the
    stored system prompt is the one of the construction, and every list
    of messages the model is invoked with starts with it, whatever the
    clock says at the time of the call. *)
Theorem system_prompt_fixo (w0 : World) (a0 : agent World) (st : estado World) :
  init now load_prompt_file get_all_tools OPENAI_API_KEY w0 = Ok a0 ->
  alcancavel load_prompt_file llm a0 st ->
  (exists prompts,
      load_prompt_file "agent_prompts.json" w0 = Ok prompts
      /\ system_prompt a0
         = montar_system_prompt (default [] (prompts !! "system_prompt")) (now w0))
  /\ system_prompt (self st) = system_prompt a0
  /\ Forall (fun ms => head ms = Some (SystemMessage (system_prompt a0)))
            (invocacoes st).
Proof.
  intros Hinit Halc. split; [apply (init_spec w0 a0 Hinit)|].
  clear Hinit.
  induction Halc as [w|st user_input max_iterations Halc [IHp IHf]
                     |st Halc IH|st w Halc IH]; simpl.
  - split; [reflexivity|constructor].
  - destruct (chat_spec user_input max_iterations st)
      as (r & st' & Hrun & _ & Hp & (novas & Hinv & Hnovas) & _).
    rewrite Hrun. simpl. split; [congruence|].
    rewrite Hinv. apply Forall_app. split; [exact IHf|].
    rewrite <- IHp. exact Hnovas.
  - exact IH.
  - exact IH.
Qed.

End AgentProps.

(** ** The properties on concrete sessions *)

Lemma chat_esgota_witness :
  (forall ms w, exists response w',
      Exemplo.llm_insistente ms w = (Ok response, w')
      /\ Agent.tool_calls response <> [])
  /\ (0 <= Agent.max_iterations_padrao)%Z
  /\ exists st',
      Agent.chat Exemplo.load_prompt_file Exemplo.llm_insistente
        (u "Quais pregões abrem amanhã?") Agent.max_iterations_padrao
        (Exemplo.inicio Exemplo.dia1)
      = (Ok Agent.erro_msg, st')
      /\ Agent.chat_history (Agent.self st') = []
      /\ Z.of_nat (length (Agent.invocacoes st')) = 15%Z.
Proof.
  assert (Hllm : forall ms w, exists response w',
             Exemplo.llm_insistente ms w = (Ok response, w')
             /\ Agent.tool_calls response <> []).
  { intros ms w. eexists _, w. split; [reflexivity|]. simpl. discriminate. }
  split; [exact Hllm|]. split; [unfold Agent.max_iterations_padrao; lia|].
  apply (chat_esgota Exemplo.load_prompt_file Exemplo.llm_insistente
           (u "Quais pregões abrem amanhã?") Agent.max_iterations_padrao
           (Exemplo.inicio Exemplo.dia1) Hllm).
  unfold Agent.max_iterations_padrao. lia.
Defined.

Lemma chat_excecao_witness :
  exists st1,
    Agent.chat_try Exemplo.llm_falha (u "Oi") 15 (Exemplo.inicio Exemplo.dia1)
    = (Raise (Exc "APIConnectionError" (u "Connection error.")), st1)
    /\ Exemplo.load_prompt_file "agent_prompts.json" (Agent.mundo st1)
       = Ok Exemplo.agent_prompts
    /\ Agent.chat Exemplo.load_prompt_file Exemplo.llm_falha (u "Oi") 15
         (Exemplo.inicio Exemplo.dia1)
       = (Ok (u "Desculpe, ocorreu um erro ao processar sua mensagem."), st1)
    /\ Agent.chat_history (Agent.self st1) = [].
Proof.
  exists {| Agent.self := Exemplo.agente1;
            Agent.mundo := Exemplo.dia1;
            Agent.invocacoes :=
              [[Agent.SystemMessage (Agent.system_prompt Exemplo.agente1);
                Agent.HumanMessage (u "Oi")]] |}.
  split; [reflexivity|]. split; [reflexivity|].
  destruct (chat_excecao Exemplo.load_prompt_file Exemplo.llm_falha (u "Oi") 15
              (Exemplo.inicio Exemplo.dia1) _
              (Exc "APIConnectionError" (u "Connection error."))
              Exemplo.agent_prompts eq_refl eq_refl) as [Hchat Hmem].
  split; [|exact Hmem].
  rewrite Hchat. vm_compute. reflexivity.
Defined.

Lemma apos_alcancavel (n : nat) :
  Agent.alcancavel Exemplo.load_prompt_file Exemplo.llm_direto Exemplo.agente1
    (Exemplo.apos n).
Proof.
  induction n as [|n IH].
  - apply Agent.alc_inicio.
  - change (Exemplo.apos (S n))
      with (snd (Agent.chat Exemplo.load_prompt_file Exemplo.llm_direto (u "Oi") 15
                   (Exemplo.apos n))).
    apply Agent.alc_chat, IH.
Defined.


(** The eleventh answered question fills the memory past 20 entries: the
    two oldest entries go, the new turn is at the end. *)
Example memoria_onze_perguntas :
  length (Agent.chat_history (Agent.self (Exemplo.apos 10))) = 20%nat
  /\ length (Agent.chat_history (Agent.self (Exemplo.apos 11))) = 20%nat
  /\ Agent.chat_history (Agent.self (Exemplo.apos 11))
     = skipn 2 (Agent.chat_history (Agent.self (Exemplo.apos 10)))
       ++ [Agent.HumanMessage (u "Oi"); Agent.AIMessage (u "Olá!") []].
Proof. repeat split. Qed.

Lemma system_prompt_fixo_witness :
  Agent.init Exemplo.now Exemplo.load_prompt_file Exemplo.get_all_tools
    Exemplo.OPENAI_API_KEY Exemplo.dia1 = Ok Exemplo.agente1
  /\ Agent.alcancavel Exemplo.load_prompt_file Exemplo.llm_direto Exemplo.agente1
       (snd (Agent.chat Exemplo.load_prompt_file Exemplo.llm_direto (u "Oi") 15
               (Exemplo.inicio Exemplo.dia2)))
  /\ Forall (fun ms => head ms
                       = Some (Agent.SystemMessage (Agent.system_prompt Exemplo.agente1)))
       (Agent.invocacoes
          (snd (Agent.chat Exemplo.load_prompt_file Exemplo.llm_direto (u "Oi") 15
                  (Exemplo.inicio Exemplo.dia2)))).
Proof.
  assert (Halc : Agent.alcancavel Exemplo.load_prompt_file Exemplo.llm_direto
                   Exemplo.agente1
                   (snd (Agent.chat Exemplo.load_prompt_file Exemplo.llm_direto
                           (u "Oi") 15 (Exemplo.inicio Exemplo.dia2)))).
  { apply Agent.alc_chat, Agent.alc_inicio. }
  assert (Hinit : Agent.init Exemplo.now Exemplo.load_prompt_file Exemplo.get_all_tools
                    Exemplo.OPENAI_API_KEY Exemplo.dia1 = Ok Exemplo.agente1).
  { vm_compute. reflexivity. }
  split; [exact Hinit|]. split; [exact Halc|].
  apply (system_prompt_fixo Exemplo.now Exemplo.load_prompt_file Exemplo.llm_direto
           Exemplo.get_all_tools Exemplo.OPENAI_API_KEY Exemplo.dia1 Exemplo.agente1
           _ Hinit Halc).
Defined.

(** C2, as the specification words it, fails: an agent built on 15/01/2026
    and asked on 01/03/2026 invokes the model with the system prompt of
    15/01/2026, which is not the one a rebuild on the day of the call
    would give. *)
Lemma system_prompt_nao_recalculado :
  Agent.init Exemplo.now Exemplo.load_prompt_file Exemplo.get_all_tools
    Exemplo.OPENAI_API_KEY Exemplo.dia1 = Ok Exemplo.agente1
  /\ Agent.invocacoes
       (snd (Agent.chat Exemplo.load_prompt_file Exemplo.llm_direto (u "Oi") 15
               (Exemplo.inicio Exemplo.dia2)))
     = [[Agent.SystemMessage (Agent.montar_system_prompt (u "Você é o ContratAI.") Exemplo.dia1);
         Agent.HumanMessage (u "Oi")]]
  /\ Agent.montar_system_prompt (u "Você é o ContratAI.") Exemplo.dia1
     <> Agent.montar_system_prompt (u "Você é o ContratAI.") (Exemplo.now Exemplo.dia2)
  /\ contains (u "Data atual: 15/01/2026 (formato API: 20260115)")
       (Agent.montar_system_prompt (u "Você é o ContratAI.") Exemplo.dia1) = true
  /\ contains (u "01/03/2026")
       (Agent.montar_system_prompt (u "Você é o ContratAI.") Exemplo.dia1) = false.
Proof.
  split; [vm_compute; reflexivity|]. split; [vm_compute; reflexivity|].
  split; [vm_compute; discriminate|]. split; vm_compute; reflexivity.
Qed.

(** The two error texts of [_execute_tool], on the registry of the
    examples. *)
Example execute_tool_exemplos :
  fst (Agent._execute_tool (u "ConsultarClima") JNull (Exemplo.inicio Exemplo.dia1))
  = Ok (u "Ferramenta 'ConsultarClima' não encontrada.")
  /\ fst (Agent._execute_tool (u "ConsultarEditaisPNCP") (JDict [])
            (Exemplo.inicio Exemplo.dia1))
     = Ok (u "Erro ao executar ferramenta: data_final: Field required")
  /\ fst (Agent._execute_tool (u "ConsultarModalidade") (JDict [])
            (Exemplo.inicio Exemplo.dia1))
     = Ok (u "{}").
Proof. vm_compute. repeat split. Qed.

(** The dates of the system prompt: thirty days after 15/01/2026 and after
    01/02/2024 (a leap year). *)
Example mais_dias_exemplos :
  Agent.strftime_Ymd (Agent.mais_dias 30 Exemplo.dia1) = u "20260214"
  /\ Agent.strftime_Ymd (Agent.mais_dias 30 {| Agent.ano := 2024; Agent.mes := 2; Agent.dia := 1 |})
     = u "20240302"
  /\ Agent.strftime_Ymd (Agent.mais_dias 30 {| Agent.ano := 2025; Agent.mes := 12; Agent.dia := 15 |})
     = u "20260114"
  /\ Agent.strftime_dmY Exemplo.dia2 = u "01/03/2026".
Proof. repeat split. Qed.

(** * Further properties of the code *)

(** ** The agent: rounds, tool results and sessions *)

Section AgentMais.

Import Agent.

Context {World : Type}.
Variable now : World -> data.
Variable load_prompt_file : string -> World -> result (gmap string str).
Variable llm : list message -> World -> result ai_message * World.
Variable get_all_tools : World -> result (list (tool World)).
Variable OPENAI_API_KEY : str.

(** The list of messages a call of [chat] starts from. *)
Local Abbreviation inicial st user_input :=
  (SystemMessage (system_prompt (self st))
     :: chat_history (self st) ++ [HumanMessage user_input]).

(** X1: when the model answers the first round without asking for a tool,
    [chat] returns that answer after one model call on the list system
    prompt, memory, user message; the memory becomes the last 20 entries of
    the old memory followed by the user turn and the answer, and nothing
    else of the agent changes. *)
Theorem chat_resposta_direta (user_input : str) (max_iterations : Z)
    (st : estado World) (response : ai_message) (w' : World) :
  (0 < max_iterations)%Z ->
  llm (inicial st user_input) (mundo st) = (Ok response, w') ->
  tool_calls response = [] ->
  chat load_prompt_file llm user_input max_iterations st
  = (Ok (content response),
     {| self := {| tools := tools (self st);
                   system_prompt := system_prompt (self st);
                   chat_history :=
                     ultimos 20 (chat_history (self st)
                                 ++ [HumanMessage user_input;
                                     AIMessage (content response) []]) |};
        mundo := w';
        invocacoes := invocacoes st ++ [inicial st user_input] |}).
Proof.
  intros Hmax Hllm Htc.
  unfold chat, try_except. rewrite chat_try_iterar.
  destruct (Z.to_nat max_iterations) as [|n] eqn:Hn; [lia|].
  rewrite iterar_S. cbv zeta. rewrite Hllm, Htc, memorizar_spec. reflexivity.
Qed.

(** X2: with [max_iterations] zero or negative the loop body never runs:
    [chat] returns the exhaustion message without calling the model, and
    the agent, the world and the trace are untouched. *)
Theorem chat_sem_iteracoes (user_input : str) (max_iterations : Z)
    (st : estado World) :
  (max_iterations <= 0)%Z ->
  chat load_prompt_file llm user_input max_iterations st = (Ok erro_msg, st).
Proof.
  intros Hmax. unfold chat, try_except. rewrite chat_try_iterar.
  replace (Z.to_nat max_iterations) with 0%nat by lia. reflexivity.
Qed.

Lemma iterar_limite (n : nat) (user_input : str) (messages : list message)
    (st : estado World) :
  exists novas,
    invocacoes (snd (iterar llm n user_input messages st)) = invocacoes st ++ novas
    /\ (length novas <= n)%nat
    /\ (0 < n -> exists resto, novas = messages :: resto)%nat.
Proof.
  revert messages st. induction n as [|n IH]; intros messages st.
  - exists []. simpl. rewrite app_nil_r. repeat split; [lia|lia].
  - rewrite iterar_S. cbv zeta.
    destruct (llm messages (mundo st)) as [[response|e] w].
    + destruct (tool_calls response) as [|tc tcs] eqn:Htc.
      * rewrite memorizar_spec. exists [messages]. simpl.
        repeat split; [lia|]. intros _. exists []. reflexivity.
      * cbv beta iota. rewrite <- Htc.
        match goal with
        | |- context [executar_tool_calls ?a ?b ?c] =>
          destruct (executar_tool_calls_spec a b c) as (extra & w2 & H2)
        end.
        rewrite H2.
        match goal with
        | |- context [iterar llm n user_input ?m ?s] =>
          destruct (IH m s) as (novas & Hinv & Hlen & _)
        end.
        exists (messages :: novas). rewrite Hinv. simpl.
        rewrite <- app_assoc. repeat split; [lia|]. intros _. eauto.
    + exists [messages]. simpl. repeat split; [lia|]. intros _. exists []. reflexivity.
Qed.

(** X3: whatever the model and the tools do, one call of [chat] invokes
    the model at most [max_iterations] times. *)
Theorem chat_limite_invocacoes (user_input : str) (max_iterations : Z)
    (st : estado World) :
  exists r st' novas,
    chat load_prompt_file llm user_input max_iterations st = (r, st')
    /\ invocacoes st' = invocacoes st ++ novas
    /\ (Z.of_nat (length novas) <= Z.max 0 max_iterations)%Z.
Proof.
  destruct (chat_spec load_prompt_file llm user_input max_iterations st)
    as (r & st' & Hrun & _).
  destruct (iterar_limite (Z.to_nat max_iterations) user_input
              (inicial st user_input) st) as (novas & Hinv & Hlen & _).
  exists r, st', novas. split; [exact Hrun|]. split; [|lia].
  rewrite <- Hinv. unfold chat, try_except in Hrun.
  rewrite chat_try_iterar in Hrun.
  destruct (iterar llm (Z.to_nat max_iterations) user_input
              (inicial st user_input) st) as [[output|e] st1]; simpl.
  - injection Hrun as _ <-. reflexivity.
  - unfold mbind, M_bind, mret, M_ret, get_agent_prompts in Hrun.
    destruct (load_prompt_file "agent_prompts.json" (mundo st1));
      injection Hrun as _ <-; reflexivity.
Qed.

(** X4: when at least one round is allowed, the first list the model is
    invoked with is the system prompt, then the memory, then the new user
    message. *)
Theorem chat_primeira_invocacao (user_input : str) (max_iterations : Z)
    (st : estado World) :
  (0 < max_iterations)%Z ->
  exists resto,
    invocacoes (snd (chat load_prompt_file llm user_input max_iterations st))
    = invocacoes st ++ inicial st user_input :: resto.
Proof.
  intros Hmax.
  destruct (iterar_limite (Z.to_nat max_iterations) user_input
              (inicial st user_input) st) as (novas & Hinv & _ & Hprim).
  destruct Hprim as [resto ->]; [lia|].
  exists resto. rewrite <- Hinv. unfold chat, try_except.
  rewrite chat_try_iterar.
  destruct (iterar llm (Z.to_nat max_iterations) user_input
              (inicial st user_input) st) as [[output|e] st1]; simpl; [reflexivity|].
  unfold mbind, M_bind, mret, M_ret, get_agent_prompts.
  destruct (load_prompt_file "agent_prompts.json" (mundo st1)); reflexivity.
Qed.


Lemma turnos_app (ts1 ts2 : list (str * str)) :
  turnos (ts1 ++ ts2) = turnos ts1 ++ turnos ts2.
Proof. unfold turnos. apply flat_map_app. Qed.

Lemma turnos_length (ts : list (str * str)) :
  length (turnos ts) = (2 * length ts)%nat.
Proof.
  induction ts as [|t ts IH]; simpl; [reflexivity|]. rewrite IH. lia.
Qed.

(** Cutting a memory of whole turns to its last 20 entries leaves whole
    turns: the new turn is added, and the oldest turn goes when there are
    ten already. *)
Lemma ultimos_turnos (ts : list (str * str)) (user_input output : str) :
  (length ts <= 10)%nat ->
  exists ts',
    ultimos 20 (turnos ts ++ [HumanMessage user_input; AIMessage output []])
    = turnos ts'
    /\ (length ts' <= 10)%nat.
Proof.
  intros Hlen.
  change [HumanMessage user_input; AIMessage output []]
    with (turnos [(user_input, output)]).
  rewrite <- turnos_app.
  destruct (Nat.eq_dec (length ts) 10%nat) as [H10|Hlt].
  - destruct ts as [|t ts]; [discriminate|].
    exists (ts ++ [(user_input, output)]). split.
    + unfold ultimos. rewrite turnos_length, length_app. simpl length.
      simpl in H10.
      match goal with
      | |- skipn ?k _ = _ => replace k with 2%nat by (simpl; lia)
      end.
      reflexivity.
    + rewrite length_app. simpl in *. lia.
  - exists (ts ++ [(user_input, output)]). split.
    + apply ultimos_curto. rewrite turnos_length, length_app. simpl. lia.
    + rewrite length_app. simpl. lia.
Qed.

(** X6: in a session that starts with an empty memory, the memory always
    holds whole turns, at most ten of them, each a user message followed by
    the final answer given to it: the cut at 20 entries never splits a
    turn.  [get_history] lists them as alternating "user" and "assistant"
    entries, dropping nothing. *)
Theorem memoria_em_turnos (a0 : agent World) (st : estado World) :
  chat_history a0 = [] ->
  alcancavel load_prompt_file llm a0 st ->
  exists ts : list (str * str),
    (length ts <= 10)%nat
    /\ chat_history (self st) = turnos ts
    /\ get_history (self st)
       = flat_map (fun t =>
                     [JDict [("role", JStr (u "user")); ("content", JStr (fst t))];
                      JDict [("role", JStr (u "assistant")); ("content", JStr (snd t))]])
                  ts.
Proof.
  intros Hvazio Halc.
  assert (Hinv : exists ts : list (str * str),
             (length ts <= 10)%nat /\ chat_history (self st) = turnos ts).
  { induction Halc as [w|st user_input max_iterations Halc IH
                       |st Halc _|st w Halc IH]; simpl.
    - exists []. rewrite Hvazio. split; [simpl; lia|reflexivity].
    - destruct IH as (ts & Hlen & Hts).
      destruct (chat_spec load_prompt_file llm user_input max_iterations st)
        as (r & st' & Hrun & _ & _ & _ & Hh).
      rewrite Hrun. simpl.
      destruct Hh as [->|(output & _ & ->)]; [eauto|].
      rewrite Hts.
      destruct (ultimos_turnos ts user_input output Hlen) as (ts' & Hcut & Hlen').
      eauto.
    - exists []. split; [simpl; lia|reflexivity].
    - exact IH. }
  destruct Hinv as (ts & Hlen & Hts).
  exists ts. split; [exact Hlen|]. split; [exact Hts|].
  unfold get_history. rewrite Hts. clear.
  induction ts as [|t ts IH]; simpl; [reflexivity|]. rewrite IH. reflexivity.
Qed.

(** X7: [__init__] validates the settings before anything else: with an
    empty OPENAI_API_KEY it raises ValueError whatever the tools and the
    prompt files are; and an agent it returns has the tools of
    [get_all_tools], an empty memory and an empty history. *)
Theorem init_resultado (w : World) :
  (OPENAI_API_KEY = [] ->
   exists msg,
     init now load_prompt_file get_all_tools OPENAI_API_KEY w
     = Raise (Exc "ValueError" msg))
  /\ (forall a,
        init now load_prompt_file get_all_tools OPENAI_API_KEY w = Ok a ->
        OPENAI_API_KEY <> []
        /\ get_all_tools w = Ok (tools a)
        /\ chat_history a = []
        /\ get_history a = []).
Proof.
  unfold init, validate, mbind, result_bind. split.
  - intros ->. simpl. eauto.
  - intros a H. destruct OPENAI_API_KEY as [|c k]; [discriminate|].
    simpl in H.
    destruct (get_all_tools w) as [ts|]; [|discriminate].
    destruct (load_prompt_file "agent_prompts.json" w); [|discriminate].
    injection H as <-. repeat split. discriminate.
Qed.

(** X8: no call of a session changes the tool registry of the agent. *)
Theorem ferramentas_fixas (a0 : agent World) (st : estado World) :
  alcancavel load_prompt_file llm a0 st ->
  tools (self st) = tools a0.
Proof.
  induction 1 as [w|st user_input max_iterations Halc IH|st Halc IH|st w Halc IH];
    simpl; try assumption; [reflexivity|].
  destruct (chat_spec load_prompt_file llm user_input max_iterations st)
    as (r & st' & Hrun & Ht & _).
  rewrite Hrun. simpl. congruence.
Qed.

(** X9: after [clear_history], the next call of [chat] gives the model no
    earlier turn: its first list is the system prompt and the new user
    message. *)
Theorem clear_history_esquece (user_input : str) (max_iterations : Z)
    (st : estado World) :
  (0 < max_iterations)%Z ->
  exists resto,
    invocacoes (snd (chat load_prompt_file llm user_input max_iterations
                       (snd (clear_history st))))
    = invocacoes st
      ++ [SystemMessage (system_prompt (self st)); HumanMessage user_input] :: resto.
Proof.
  intros Hmax. set (st0 := snd (clear_history st)).
  destruct (iterar_limite (Z.to_nat max_iterations) user_input
              (inicial st0 user_input) st0) as (novas & Hinv & _ & Hprim).
  destruct Hprim as [resto ->]; [lia|].
  exists resto. change (invocacoes st) with (invocacoes st0).
  change [SystemMessage (system_prompt (self st)); HumanMessage user_input]
    with (inicial st0 user_input).
  rewrite <- Hinv. unfold chat, try_except. rewrite chat_try_iterar.
  destruct (iterar llm (Z.to_nat max_iterations) user_input
              (inicial st0 user_input) st0) as [[output|e] st1]; simpl; [reflexivity|].
  unfold mbind, M_bind, mret, M_ret, get_agent_prompts.
  destruct (load_prompt_file "agent_prompts.json" (mundo st1)); reflexivity.
Qed.

Lemma iterar_falha (n : nat) (user_input : str) (messages : list message)
    (st st' : estado World) (e : exception) :
  iterar llm n user_input messages st = (Raise e, st') ->
  exists ms w w', llm ms w = (Raise e, w').
Proof.
  revert messages st. induction n as [|n IH]; intros messages st.
  - discriminate.
  - rewrite iterar_S. cbv zeta.
    destruct (llm messages (mundo st)) as [[response|e0] w] eqn:Hllm.
    + destruct (tool_calls response) as [|tc tcs] eqn:Htc.
      * rewrite memorizar_spec. discriminate.
      * cbv beta iota. rewrite <- Htc.
        match goal with
        | |- context [executar_tool_calls ?a ?b ?c] =>
          destruct (executar_tool_calls_spec a b c) as (extra & w2 & H2)
        end.
        rewrite H2. apply IH.
    + intros H. injection H as -> _. eauto.
Qed.

(** X10: a failing tool never aborts a call.  The only exceptions that
    leave the [try] block of [chat] are those raised by the model
    invocation itself; whatever the tools do, their failures come back to
    the model as text. *)
Theorem chat_try_so_falha_no_modelo (user_input : str) (max_iterations : Z)
    (st st1 : estado World) (e : exception) :
  chat_try llm user_input max_iterations st = (Raise e, st1) ->
  exists ms w w', llm ms w = (Raise e, w').
Proof.
  rewrite chat_try_iterar. apply iterar_falha.
Qed.

End AgentMais.

(** ** The modality lookup: the normal form of a query *)

Ltac casos_cp :=
  repeat (match goal with
          | |- context [N.leb ?a ?b] => is_var a; destruct (N.leb_spec a b)
          | |- context [N.leb ?a ?b] => is_var b; destruct (N.leb_spec a b)
          | |- context [N.eqb ?a ?b] => is_var a; destruct (N.eqb_spec a b)
          end; simpl; try lia);
  repeat (match goal with
          | |- context [N.leb ?a ?b] => destruct (N.leb_spec a b)
          | |- context [N.eqb ?a ?b] => destruct (N.eqb_spec a b)
          end; simpl; try lia);
  try reflexivity.

Lemma lower_cp_idem (c : N) : lower_cp (lower_cp c) = lower_cp c.
Proof. unfold lower_cp. casos_cp. Qed.

Lemma lower_cp_hifen (c : N) : c <> 45 -> lower_cp c <> 45.
Proof. unfold lower_cp. intros Hc. casos_cp. Qed.

(** After the hyphens are replaced and the case is lowered, every code
    point is its own lower case and none is a hyphen. *)
Lemma lower_replace_chars (s : str) :
  Forall (fun c => lower_cp c = c /\ c <> 45) (lower (replace1 45 [32] s)).
Proof.
  unfold lower, replace1. induction s as [|c s IH]; simpl; [constructor|].
  destruct (N.eqb_spec c 45) as [->|Hc]; simpl.
  - constructor; [split; [reflexivity|discriminate]|exact IH].
  - constructor; [|exact IH].
    split; [apply lower_cp_idem|apply lower_cp_hifen, Hc].
Qed.

(** The words [split] returns are not empty, hold no white space, and are
    made of code points of the text. *)
Lemma split_aux_palavras (P : N -> Prop) (s cur : str) :
  Forall P s -> Forall P cur -> Forall (fun c => isspace c = false) cur ->
  Forall (fun w => w <> [] /\ Forall (fun c => P c /\ isspace c = false) w)
         (split_aux cur s).
Proof.
  revert cur. induction s as [|c s IH]; intros cur Hs Hcur Hesp; simpl.
  - destruct cur as [|d cur]; [constructor|].
    constructor; [|constructor]. split.
    + intros H. apply (f_equal (@length N)) in H.
      rewrite length_rev in H. discriminate.
    + apply Forall_rev. apply Forall_forall. intros x Hx. split.
      * exact (proj1 (Forall_forall _ _) Hcur x Hx).
      * exact (proj1 (Forall_forall _ _) Hesp x Hx).
  - inversion Hs as [|? ? Hc Hs']; subst.
    destruct (isspace c) eqn:Hsp.
    + destruct cur as [|d cur]; [apply IH; auto|].
      constructor; [|apply IH; auto]. split.
      * intros H. apply (f_equal (@length N)) in H.
        rewrite length_rev in H. discriminate.
      * apply Forall_rev. apply Forall_forall. intros x Hx. split.
        -- exact (proj1 (Forall_forall _ _) Hcur x Hx).
        -- exact (proj1 (Forall_forall _ _) Hesp x Hx).
    + apply IH; auto.
Qed.

Lemma split_aux_palavra (w cur rest : str) :
  Forall (fun c => isspace c = false) w ->
  split_aux cur (w ++ rest) = split_aux (rev w ++ cur) rest.
Proof.
  revert cur. induction w as [|c w IH]; intros cur Hw; simpl; [reflexivity|].
  inversion Hw as [|? ? Hc Hw']; subst. rewrite Hc, IH by exact Hw'.
  rewrite <- app_assoc. reflexivity.
Qed.

(** Splitting what [" ".join] made of space-free words gives the words
    back. *)
Lemma split_join (ws : list str) :
  Forall (fun w => w <> [] /\ Forall (fun c => isspace c = false) w) ws ->
  split (join [32] ws) = ws.
Proof.
  unfold split. induction ws as [|w ws IH]; intros H; [reflexivity|].
  inversion H as [|? ? [Hne Hw] Hws]; subst.
  assert (Hrev : exists d r, rev w = d :: r).
  { destruct (rev w) as [|d r] eqn:Hr; [|eauto].
    apply (f_equal (@length N)) in Hr. rewrite length_rev in Hr.
    destruct w; [congruence|discriminate]. }
  destruct Hrev as (d & r & Hr).
  destruct ws as [|w2 ws].
  - simpl. rewrite <- (app_nil_r w) at 1.
    rewrite split_aux_palavra by exact Hw. rewrite app_nil_r. simpl.
    rewrite Hr, <- Hr, rev_involutive. reflexivity.
  - change (join [32] (w :: w2 :: ws)) with (w ++ [32] ++ join [32] (w2 :: ws)).
    rewrite split_aux_palavra by exact Hw. rewrite app_nil_r.
    simpl. rewrite Hr, <- Hr, rev_involutive. f_equal. apply IH, Hws.
Qed.

Lemma join_chars (P : N -> Prop) (ws : list str) :
  P 32 -> Forall (Forall P) ws -> Forall P (join [32] ws).
Proof.
  intros H32. induction ws as [|w ws IH]; intros H; [constructor|].
  inversion H as [|? ? Hw Hws]; subst.
  destruct ws as [|w2 ws]; [exact Hw|].
  change (join [32] (w :: w2 :: ws)) with (w ++ [32] ++ join [32] (w2 :: ws)).
  apply Forall_app. split; [exact Hw|].
  apply Forall_app. split; [repeat constructor; exact H32|apply IH, Hws].
Qed.

Lemma replace1_sem (old : N) (new s : str) :
  Forall (fun c => c <> old) s -> replace1 old new s = s.
Proof.
  unfold replace1. induction 1 as [|c s Hc Hs IH]; simpl; [reflexivity|].
  destruct (N.eqb_spec c old); [contradiction|]. simpl. f_equal. exact IH.
Qed.

Lemma lower_fixo (s : str) :
  Forall (fun c => lower_cp c = c) s -> lower s = s.
Proof.
  unfold lower. induction 1 as [|c s Hc Hs IH]; simpl; [reflexivity|].
  rewrite Hc, IH. reflexivity.
Qed.

Lemma normalizar_idempotente (texto : str) :
  Modalidade.normalizar (Modalidade.normalizar texto) = Modalidade.normalizar texto.
Proof.
  unfold Modalidade.normalizar. change (u " ") with [32].
  set (ws := split (lower (replace1 45 [32] texto))).
  assert (Hws : Forall (fun w => w <> []
                                 /\ Forall (fun c => (lower_cp c = c /\ c <> 45)
                                                     /\ isspace c = false) w) ws).
  { apply split_aux_palavras; [apply lower_replace_chars|constructor|constructor]. }
  assert (Hj : Forall (fun c => lower_cp c = c /\ c <> 45) (join [32] ws)).
  { apply join_chars; [split; [reflexivity|discriminate]|].
    eapply Forall_impl; [exact Hws|]. intros w [_ Hw].
    eapply Forall_impl; [exact Hw|]. intros c [Hc _]. exact Hc. }
  rewrite replace1_sem
    by (eapply Forall_impl; [exact Hj|]; intros c [_ Hc]; exact Hc).
  rewrite lower_fixo
    by (eapply Forall_impl; [exact Hj|]; intros c [Hc _]; exact Hc).
  rewrite split_join; [reflexivity|].
  eapply Forall_impl; [exact Hws|]. intros w [Hne Hw]. split; [exact Hne|].
  eapply Forall_impl; [exact Hw|]. intros c [_ Hc]. exact Hc.
Qed.

(** X11: the normal form of a query (lower case, hyphens and runs of white
    space turned into single spaces) is a fixed point of the normalization,
    and the lookup only sees the normal form: a query and its normal form
    get the same answer. *)
Theorem consultar_modalidade_forma_normal (nome : str) :
  Modalidade.normalizar (Modalidade.normalizar nome) = Modalidade.normalizar nome
  /\ (Modalidade.normalizar nome <> [] ->
      Modalidade.consultar_modalidade (Some (Modalidade.normalizar nome))
      = Modalidade.consultar_modalidade (Some nome)).
Proof.
  split; [apply normalizar_idempotente|].
  intros Hne.
  destruct nome as [|c nome]; [exfalso; apply Hne; reflexivity|].
  unfold Modalidade.consultar_modalidade, Modalidade.resultados_modalidade.
  destruct (Modalidade.normalizar (c :: nome)) as [|d n] eqn:Hn; [congruence|].
  rewrite <- Hn, normalizar_idempotente. reflexivity.
Qed.

(** X12: a query that is not empty but holds only white space and hyphens
    has the empty normal form, which is part of every name: the lookup
    answers with all ten modalities. *)
Theorem consultar_modalidade_em_branco (nome : str) :
  nome <> [] ->
  Modalidade.normalizar nome = [] ->
  Modalidade.consultar_modalidade (Some nome)
  = JDict [("success", JBool true);
           ("total_encontrados", JInt 10);
           ("modalidades",
            JList (map Modalidade.modalidade_json
                       Modalidade.obter_modalidades_contratacao))].
Proof.
  intros Hne Hn. destruct nome as [|c nome]; [congruence|].
  unfold Modalidade.consultar_modalidade, Modalidade.resultados_modalidade.
  rewrite Hn. reflexivity.
Qed.

(** ** The state lookup: unique ids *)

Lemma filter_id_unico {A} (f : A -> Z) (k : Z) (l : list A) :
  NoDup (map f l) ->
  (length (List.filter (fun x => (f x =? k)%Z) l) <= 1)%nat.
Proof.
  induction l as [|x l IH]; simpl; intros Hnd; [lia|].
  inversion Hnd as [|? ? Hx Hnd']; subst.
  destruct (Z.eqb_spec (f x) k) as [Hk|Hk]; [|apply IH, Hnd'].
  simpl. replace (List.filter (fun y => (f y =? k)%Z) l) with (@nil A); [simpl; lia|].
  symmetry. clear IH Hnd Hnd'. induction l as [|y l IH]; simpl; [reflexivity|].
  destruct (Z.eqb_spec (f y) k) as [Hy|Hy].
  - exfalso. apply Hx. apply list_elem_of_In. simpl. left. congruence.
  - apply IH. intros Hin. apply Hx. apply list_elem_of_In. simpl. right.
    apply list_elem_of_In. exact Hin.
Qed.

(** X13: when no two rows of the table share an id, a lookup by id (with
    any other arguments) answers either that no state was found or with
    exactly one state, a row of the table that has this id. *)
Theorem consultar_uf_id_unico (e0 : UF.estado) (es : list UF.estado) (id : Z)
    (sigla nome regiao_nome : option str) :
  NoDup (map UF.e_id (e0 :: es)) ->
  UF.consultar_uf (Some (e0 :: es)) (Some id) sigla nome regiao_nome
  = JDict [("success", JBool false);
           ("message",
            JStr (u "Nenhum estado encontrado com os critérios especificados"))]
  \/ exists e,
      In e (e0 :: es) /\ UF.e_id e = id
      /\ UF.consultar_uf (Some (e0 :: es)) (Some id) sigla nome regiao_nome
         = JDict [("success", JBool true);
                  ("total_encontrados", JInt 1);
                  ("estados", JList [UF.estado_json e])].
Proof.
  intros Hnd.
  pose proof (filter_id_unico UF.e_id id (e0 :: es) Hnd) as Hlen.
  unfold UF.consultar_uf. simpl UF.carregar_estados_brasil. cbv iota beta.
  unfold UF.resultados_uf.
  destruct (List.filter (fun e => (UF.e_id e =? id)%Z) (e0 :: es))
    as [|e [|e' r]] eqn:Hf; [left; reflexivity| |simpl in Hlen; lia].
  right. exists e.
  assert (Hin : In e (List.filter (fun e => (UF.e_id e =? id)%Z) (e0 :: es))).
  { rewrite Hf. left. reflexivity. }
  apply filter_In in Hin as [Hin Hid]. apply Z.eqb_eq in Hid.
  repeat split; assumption.
Qed.

(** ** The municipality lookup: priority, state filters and null objects *)

Section MunicipioMais.

Import Municipio.

Variable arquivo_municipios : option (list municipio).

Lemma formatar_sem_nulo (m : municipio) :
  tem_nulo m = false -> exists j, formatar m = Ok j.
Proof.
  unfold tem_nulo, formatar. destruct m as [id nome [| |[mn [| |[en [| |uf]]]]]];
    simpl; intros H; try discriminate; eauto.
Qed.

Lemma formatar_com_nulo (m : municipio) :
  tem_nulo m = true -> formatar m = Raise attribute_error.
Proof.
  unfold tem_nulo, formatar. destruct m as [id nome [| |[mn [| |[en [| |uf]]]]]];
    simpl; intros H; try discriminate; reflexivity.
Qed.

Lemma mapM_formatar_sem_nulo (l : list municipio) :
  existsb tem_nulo l = false -> exists js, mapM formatar l = Ok js.
Proof.
  induction l as [|m l IH]; simpl; intros H; [eauto|].
  apply orb_false_elim in H as [Hm Hl].
  destruct (formatar_sem_nulo m Hm) as [j Hj].
  destruct (IH Hl) as [js Hjs].
  unfold mbind, result_bind. rewrite Hj, Hjs. eauto.
Qed.

Lemma mapM_formatar_com_nulo (l : list municipio) :
  existsb tem_nulo l = true -> mapM formatar l = Raise attribute_error.
Proof.
  induction l as [|m l IH]; simpl; intros H; [discriminate|].
  unfold mbind, result_bind.
  destruct (tem_nulo m) eqn:Hm.
  - rewrite (formatar_com_nulo m Hm). reflexivity.
  - destruct (formatar_sem_nulo m Hm) as [j ->]. simpl in H.
    rewrite (IH H). reflexivity.
Qed.

(** X14: the answer is an exception exactly when one of the selected rows
    holds [null] where a nested object is expected ("microrregiao",
    "mesorregiao" or "UF"): then [consultar_municipio] raises
    AttributeError while building the compact rows; otherwise it returns a
    payload. *)
Theorem consultar_municipio_nulo
    (id : option Z) (nome : option str) (uf_id_ : option Z) (uf_sigla_ : option str)
    (resultados : list municipio) :
  resultados_municipio (carregar_municipios_brasil arquivo_municipios)
    id nome uf_id_ uf_sigla_ = Some resultados ->
  (existsb tem_nulo resultados = true ->
   consultar_municipio arquivo_municipios id nome uf_id_ uf_sigla_
   = Raise attribute_error)
  /\ (existsb tem_nulo resultados = false ->
      exists j,
        consultar_municipio arquivo_municipios id nome uf_id_ uf_sigla_ = Ok j).
Proof.
  intros Hres. unfold consultar_municipio.
  destruct (carregar_municipios_brasil arquivo_municipios) as [|m0 ms] eqn:Hc.
  - split; [|eauto]. intros Hn.
    assert (resultados = []) as ->; [|discriminate].
    unfold resultados_municipio in Hres.
    destruct id; [injection Hres as <-; reflexivity|].
    destruct nome as [[|c n]|]; try (injection Hres as <-; reflexivity);
      destruct uf_id_; try (injection Hres as <-; reflexivity);
      destruct uf_sigla_ as [[|c' n']|]; try discriminate;
      injection Hres as <-; reflexivity.
  - rewrite Hres. destruct resultados as [|r rs]; [split; [discriminate|eauto]|].
    split; intros Hn.
    + rewrite (mapM_formatar_com_nulo _ Hn). reflexivity.
    + destruct (mapM_formatar_sem_nulo _ Hn) as [js ->]. simpl. eauto.
Qed.

Lemma uf_de_sem_nulo (m : municipio) (uf0 : uf) :
  uf_de m = Some uf0 -> tem_nulo m = false.
Proof.
  unfold uf_de, tem_nulo.
  destruct m as [id nome [| |[mn [| |[en [| |uf1]]]]]]; simpl;
    intros H; try discriminate; reflexivity.
Qed.

Lemma filter_uf_sem_nulo (p : uf -> bool) (l : list municipio) :
  existsb tem_nulo
    (List.filter (fun m => match uf_de m with
                           | Some uf0 => p uf0
                           | None => false
                           end) l) = false.
Proof.
  induction l as [|m l IH]; simpl; [reflexivity|].
  destruct (uf_de m) as [uf0|] eqn:Hu; [|exact IH].
  destruct (p uf0); [|exact IH].
  simpl. rewrite (uf_de_sem_nulo m uf0 Hu), IH. reflexivity.
Qed.

(** X15: the two state filters never raise.  With no id and no name (a
    missing or empty one), whatever the table holds and whatever state id
    or abbreviation is asked for, [consultar_municipio] returns a payload:
    the rows these filters select have passed the guarded walk to "UF", so
    their compact rows can always be built. *)
Theorem consultar_municipio_uf_nunca_levanta
    (nome : option str) (uf_id_ : option Z) (uf_sigla_ : option str) :
  nome = None \/ nome = Some [] ->
  exists j, consultar_municipio arquivo_municipios None nome uf_id_ uf_sigla_ = Ok j.
Proof.
  intros Hnome. unfold consultar_municipio.
  destruct (carregar_municipios_brasil arquivo_municipios) as [|m0 ms]; [eauto|].
  set (municipios := m0 :: ms).
  assert (Hcases :
            resultados_municipio municipios None nome uf_id_ uf_sigla_ = None
            \/ exists rs,
                resultados_municipio municipios None nome uf_id_ uf_sigla_ = Some rs
                /\ existsb tem_nulo rs = false).
  { unfold resultados_municipio.
    destruct Hnome as [-> | ->];
      (destruct uf_id_ as [k|];
       [right; eexists; split; [reflexivity|apply filter_uf_sem_nulo]|]);
      (destruct uf_sigla_ as [[|c s]|]; try (left; reflexivity);
       right; eexists; split; [reflexivity|apply filter_uf_sem_nulo]). }
  destruct Hcases as [-> | (rs & -> & Hrs)]; [eauto|].
  destruct rs as [|r rs]; [eauto|].
  destruct (mapM_formatar_sem_nulo _ Hrs) as [js ->]. simpl. eauto.
Qed.

(** X16: the arguments are used in the fixed order id, nome, uf_id,
    uf_sigla, and only the first supplied one counts: with an id the other
    three do not matter; with a name (and no id) the two state arguments
    do not matter; with a state id (and neither id nor name) the
    abbreviation does not matter; an empty name or abbreviation counts as
    not given. *)
Theorem consultar_municipio_prioridade :
  (forall id nome uf_id_ uf_sigla_,
      consultar_municipio arquivo_municipios (Some id) nome uf_id_ uf_sigla_
      = consultar_municipio arquivo_municipios (Some id) None None None)
  /\ (forall c nome uf_id_ uf_sigla_,
      consultar_municipio arquivo_municipios None (Some (c :: nome)) uf_id_ uf_sigla_
      = consultar_municipio arquivo_municipios None (Some (c :: nome)) None None)
  /\ (forall k uf_sigla_,
      consultar_municipio arquivo_municipios None None (Some k) uf_sigla_
      = consultar_municipio arquivo_municipios None None (Some k) None
      /\ consultar_municipio arquivo_municipios None (Some []) (Some k) uf_sigla_
         = consultar_municipio arquivo_municipios None None (Some k) None)
  /\ (forall uf_sigla_,
      consultar_municipio arquivo_municipios None (Some []) None uf_sigla_
      = consultar_municipio arquivo_municipios None None None uf_sigla_)
  /\ consultar_municipio arquivo_municipios None None None (Some [])
     = consultar_municipio arquivo_municipios None None None None.
Proof.
  unfold consultar_municipio, resultados_municipio.
  repeat split; intros;
    destruct (carregar_municipios_brasil arquivo_municipios); try reflexivity;
    match goal with
    | |- context [casam_nome ?l ?n] =>
      destruct (50 <? length (casam_nome l n))%nat; reflexivity
    end.
Qed.

Lemma formatar_uf (m : municipio) (uf0 : uf) (j : json) :
  uf_de m = Some uf0 ->
  formatar m = Ok j ->
  campo_de "uf" j
  = Some (JDict [("id", jopt JInt (uf_id uf0));
                 ("sigla", jopt JStr (uf_sigla uf0));
                 ("nome", jopt JStr (uf_nome uf0))]).
Proof.
  unfold uf_de, formatar.
  destruct m as [id nome [| |[mn [| |[en [| |uf1]]]]]]; simpl;
    intros Hu; try discriminate.
  injection Hu as ->. intros H. injection H as <-. reflexivity.
Qed.

Lemma mapM_Forall {A B} (f : A -> result B) (P : A -> Prop) (Q : B -> Prop)
    (l : list A) (ys : list B) :
  (forall x y, P x -> f x = Ok y -> Q y) ->
  Forall P l -> mapM f l = Ok ys -> Forall Q ys.
Proof.
  intros Hf. revert ys. induction l as [|x l IH]; simpl; intros ys HP H.
  - injection H as <-. constructor.
  - inversion HP as [|? ? Hx Hl]; subst.
    unfold mbind, result_bind in H.
    destruct (f x) as [y|] eqn:Hy; [|discriminate].
    destruct (mapM f l) as [ys'|]; [|discriminate].
    injection H as <-. constructor; [eapply Hf; eauto|apply IH; auto].
Qed.

(** X17: a search by state id (no id, no name) lists only municipalities
    of that state: every row of the answer shows the id asked for in its
    "uf" object. *)
Theorem consultar_municipio_uf_id_linhas
    (k : Z) (uf_sigla_ : option str) (j : json) (linhas : list json) :
  consultar_municipio arquivo_municipios None None (Some k) uf_sigla_ = Ok j ->
  campo_de "municipios" j = Some (JList linhas) ->
  Forall (fun linha =>
            exists ufj, campo_de "uf" linha = Some ufj
                        /\ campo_de "id" ufj = Some (JInt k))
         linhas.
Proof.
  unfold consultar_municipio.
  destruct (carregar_municipios_brasil arquivo_municipios) as [|m0 ms];
    [intros H; injection H as <-; discriminate|].
  unfold resultados_municipio.
  set (rs := List.filter _ (m0 :: ms)).
  assert (Hrs : Forall (fun m => exists uf0, uf_de m = Some uf0
                                             /\ uf_id uf0 = Some k) rs).
  { apply Forall_forall. intros m Hin. apply list_elem_of_In in Hin.
    apply filter_In in Hin as [_ Hm].
    destruct (uf_de m) as [uf0|]; [|discriminate].
    exists uf0. split; [reflexivity|].
    unfold opt_eqb in Hm. destruct (uf_id uf0) as [i|]; [|discriminate].
    apply Z.eqb_eq in Hm. congruence. }
  destruct rs as [|r rs']; [intros H; injection H as <-; discriminate|].
  unfold mbind at 1, result_bind at 1.
  destruct (mapM formatar (r :: rs')) as [js|] eqn:Hjs; [|discriminate].
  intros H. injection H as <-. simpl. intros Hl. injection Hl as <-.
  eapply mapM_Forall; [|exact Hrs|exact Hjs].
  intros m row (uf0 & Hu & Hid) Hrow.
  eexists. split; [apply (formatar_uf m uf0 row Hu Hrow)|].
  simpl. rewrite Hid. reflexivity.
Qed.

End MunicipioMais.

(** ** The procurement search: the whole request and its answer *)

Section PNCPMais.

Import PNCP.

Variable requests_get : string -> gmap string valor -> result response.
Variable dumps : json -> str.

Variables (data_final : str) (pagina tamanho_pagina : Z) (uf cnpj : option str)
          (codigo_modalidade : option Z) (codigo_municipio_ibge : option str).

Local Abbreviation ps :=
  (params data_final pagina tamanho_pagina uf cnpj codigo_modalidade
          codigo_municipio_ibge).

Local Abbreviation saida :=
  (consultar_editais_pncp_http requests_get dumps data_final pagina tamanho_pagina
     uf cnpj codigo_modalidade codigo_municipio_ibge).

Lemma se_str_mesma (k : string) f x (m : gmap string valor) :
  se_str k f x m !! k
  = match x with
    | Some (c :: r) => Some (f (c :: r))
    | _ => m !! k
    end.
Proof.
  unfold se_str. destruct x as [[|c r]|]; try reflexivity. apply lookup_insert_eq.
Qed.

Lemma se_int_mesma (k : string) x (m : gmap string valor) :
  se_int k x m !! k
  = match x with
    | Some z => if (z =? 0)%Z then m !! k else Some (VInt z)
    | None => m !! k
    end.
Proof.
  unfold se_int. destruct x as [z|]; [|reflexivity].
  destruct (z =? 0)%Z; [reflexivity|apply lookup_insert_eq].
Qed.

Lemma params_outra_chave (k : string) :
  ~ In k chaves_params -> ps !! k = None.
Proof.
  intros Hk. unfold params.
  assert (Hne : forall k', In k' chaves_params -> k' <> k) by (intros k' Hin ->; auto).
  rewrite se_str_outra by (apply Hne; simpl; auto 10).
  rewrite se_int_outra by (apply Hne; simpl; auto 10).
  rewrite !se_str_outra by (apply Hne; simpl; auto 10).
  rewrite !lookup_insert_ne by (apply Hne; simpl; auto 10).
  apply lookup_empty.
Qed.

(** X18: what the request carries.  ["dataFinal"] and ["pagina"] are sent
    as given; ["uf"] is the abbreviation in upper case; each optional
    parameter is sent only when its argument is given and truthy (so an
    empty text, and a modality code 0, are left out); and there is no other
    key than the seven the code names. *)
Theorem params_conteudo :
  ps !! "dataFinal" = Some (VStr data_final)
  /\ ps !! "pagina" = Some (VInt pagina)
  /\ ps !! "uf" = match uf with
                  | Some (c :: r) => Some (VStr (upper (c :: r)))
                  | _ => None
                  end
  /\ ps !! "cnpj" = match cnpj with
                    | Some (c :: r) => Some (VStr (limpar_cnpj (c :: r)))
                    | _ => None
                    end
  /\ ps !! "codigoModalidadeContratacao"
     = match codigo_modalidade with
       | Some z => if (z =? 0)%Z then None else Some (VInt z)
       | None => None
       end
  /\ ps !! "codigoMunicipioIbge" = match codigo_municipio_ibge with
                                   | Some (c :: r) => Some (VStr (c :: r))
                                   | _ => None
                                   end
  /\ forall k, ~ In k chaves_params -> ps !! k = None.
Proof.
  unfold params. repeat split.
  - rewrite se_str_outra by discriminate. rewrite se_int_outra by discriminate.
    rewrite !se_str_outra by discriminate.
    rewrite !lookup_insert_ne by discriminate. apply lookup_insert_eq.
  - rewrite se_str_outra by discriminate. rewrite se_int_outra by discriminate.
    rewrite !se_str_outra by discriminate.
    rewrite lookup_insert_ne by discriminate. apply lookup_insert_eq.
  - rewrite se_str_outra by discriminate. rewrite se_int_outra by discriminate.
    rewrite se_str_outra by discriminate. rewrite se_str_mesma.
    destruct uf as [[|c r]|]; reflexivity.
  - rewrite se_str_outra by discriminate. rewrite se_int_outra by discriminate.
    rewrite se_str_mesma.
    destruct cnpj as [[|c r]|]; try reflexivity;
      rewrite se_str_outra by discriminate; reflexivity.
  - rewrite se_str_outra by discriminate. rewrite se_int_mesma.
    destruct codigo_modalidade as [z|];
      [destruct (z =? 0)%Z; [|reflexivity]|];
      rewrite !se_str_outra by discriminate; reflexivity.
  - rewrite se_str_mesma.
    destruct codigo_municipio_ibge as [[|c r]|]; try reflexivity;
      rewrite se_int_outra by discriminate;
      rewrite !se_str_outra by discriminate; reflexivity.
  - apply params_outra_chave.
Qed.

Lemma assoc_omap (m : gmap string valor) (keys : list string) (k : string) :
  assoc k (omap (fun k' => match m !! k' with
                           | Some v => Some (k', valor_json v)
                           | None => None
                           end) keys)
  = if existsb (String.eqb k) keys then valor_json <$> m !! k else None.
Proof.
  unfold omap.
  induction keys as [|k' keys IH]; simpl; [reflexivity|].
  destruct (String.eqb_spec k k') as [->|Hne]; simpl.
  - destruct (m !! k') as [v|] eqn:Hv; simpl.
    + rewrite String.eqb_refl. reflexivity.
    + rewrite IH. destruct (existsb _ keys); reflexivity.
  - destruct (m !! k') as [v|]; simpl; [|exact IH].
    destruct (String.eqb_spec k k'); [contradiction|exact IH].
Qed.

(** The object ["parametros_enviados"] of an error answer holds
    exactly the request parameters: reading any key from it gives the value
    the request carried under that key, and nothing for a key the request
    did not carry. *)
Lemma params_json_fiel (k : string) :
  campo_de k (params_json ps) = valor_json <$> ps !! k.
Proof.
  unfold params_json, campo_de. rewrite assoc_omap.
  destruct (existsb (String.eqb k) chaves_params) eqn:Hk; [reflexivity|].
  rewrite params_outra_chave; [reflexivity|].
  intros Hin. apply Bool.not_true_iff_false in Hk. apply Hk.
  apply existsb_exists. exists k. split; [exact Hin|apply String.eqb_refl].
Qed.

(** X19: an answer with a status other than 200 becomes an error payload
    that carries the status and the parameters that were sent; its message
    ends with the JSON body of the answer when there is one, and with the
    first 500 characters of its text otherwise.  Nothing is raised. *)
Theorem consultar_editais_pncp_erro_http (r : response) :
  requests_get api_url ps = Ok r ->
  status_code r <> 200%Z ->
  saida
  = JDict [("success", JBool false);
           ("error", JStr (u "Erro na requisição à API do PNCP"));
           ("status_code", JInt (status_code r));
           ("message",
            JStr (u "Não foi possível obter os dados. Verifique os parâmetros e tente novamente."
                  ++ [10]
                  ++ match resp_json r with
                     | Ok error_data => u "Detalhes: " ++ dumps error_data
                     | Raise _ => u "Resposta: " ++ firstn 500 (text r)
                     end));
           ("parametros_enviados", params_json ps)].
Proof.
  intros Hget Hst.
  unfold consultar_editais_pncp_http, consultar_editais_pncp, bloco_try, corpo_try.
  rewrite Hget. unfold mbind, result_bind.
  destruct (Z.eqb_spec (status_code r) 200) as [|_]; [contradiction|].
  unfold resultado_erro. destruct (resp_json r); reflexivity.
Qed.

(** X20: an exception of the request itself, or of decoding the body of a
    200 answer, is caught: a timeout (Timeout, ConnectTimeout, ReadTimeout)
    gives the fixed timeout payload, any other exception a payload whose
    ["error"] is its text.  Neither payload has a status code. *)
Theorem consultar_editais_pncp_excecao (e : exception) :
  requests_get api_url ps = Raise e
  \/ (exists r, requests_get api_url ps = Ok r
                /\ status_code r = 200%Z /\ resp_json r = Raise e) ->
  saida
  = (if eh_timeout e
     then JDict [("success", JBool false);
                 ("error", JStr (u "Timeout na requisição"));
                 ("message",
                  JStr (u "A API do PNCP demorou muito para responder. Tente novamente."))]
     else JDict [("success", JBool false);
                 ("error", JStr (mensagem e));
                 ("message", JStr (u "Erro ao consultar a API do PNCP"))])
  /\ campo_de "status_code" saida = None.
Proof.
  intros H.
  assert (Hc : corpo_try requests_get dumps pagina ps = Raise e).
  { unfold corpo_try, mbind, result_bind.
    destruct H as [-> | (r & -> & Hst & Hj)]; [reflexivity|].
    rewrite Hst. simpl. rewrite Hj. reflexivity. }
  unfold consultar_editais_pncp_http, consultar_editais_pncp, bloco_try.
  rewrite Hc. split; [reflexivity|]. destruct (eh_timeout e); reflexivity.
Qed.

Lemma py_get_dict (d : list (string * json)) (k : string) (padrao : json) :
  py_get (JDict d) k padrao = Ok (default padrao (assoc k d)).
Proof. reflexivity. Qed.

Lemma edital_bem_formado (item : json) :
  registro_bem_formado item = true -> exists e, edital item = Ok e.
Proof.
  destruct item as [| | | | |d]; try discriminate.
  unfold registro_bem_formado, aninhado_ok. intros H.
  apply andb_prop in H as [H Ha]. apply andb_prop in H as [Ho Hu].
  unfold edital, get1, get2. rewrite !py_get_dict. unfold mbind, result_bind.
  destruct (assoc "orgaoEntidade" d) as [[| | | | |d1]|]; try discriminate;
    destruct (assoc "unidadeOrgao" d) as [[| | | | |d2]|]; try discriminate;
    destruct (assoc "amparoLegal" d) as [[| | | | |d3]|]; try discriminate;
    simpl; eauto.
Qed.

Lemma edital_mal_formado (item : json) :
  registro_bem_formado item = false ->
  exists msg, edital item = Raise (Exc "AttributeError" msg).
Proof.
  destruct item as [| | | | |d]; try (intros _; simpl; eauto; fail).
  unfold registro_bem_formado, aninhado_ok. intros H.
  unfold edital, get1, get2. rewrite !py_get_dict. unfold mbind, result_bind.
  destruct (assoc "orgaoEntidade" d) as [[| | | | |d1]|]; simpl; eauto;
    destruct (assoc "unidadeOrgao" d) as [[| | | | |d2]|]; simpl; eauto;
    destruct (assoc "amparoLegal" d) as [[| | | | |d3]|]; simpl; eauto;
    discriminate.
Qed.

Lemma mapM_edital_ok (itens : list json) :
  forallb registro_bem_formado itens = true ->
  exists editais, mapM edital itens = Ok editais /\ length editais = length itens.
Proof.
  induction itens as [|item itens IH]; simpl; intros H; [exists []; auto|].
  apply andb_prop in H as [Hi Hr].
  destruct (edital_bem_formado item Hi) as [e He].
  destruct (IH Hr) as (es & Hes & Hlen).
  unfold mbind, result_bind. rewrite He, Hes.
  exists (e :: es). simpl. auto.
Qed.

Lemma mapM_edital_falha (itens : list json) :
  forallb registro_bem_formado itens = false ->
  exists msg, mapM edital itens = Raise (Exc "AttributeError" msg).
Proof.
  induction itens as [|item itens IH]; simpl; intros H; [discriminate|].
  unfold mbind, result_bind.
  destruct (registro_bem_formado item) eqn:Hi.
  - destruct (edital_bem_formado item Hi) as [e ->]. simpl in H.
    destruct (IH H) as [msg ->]. eauto.
  - destruct (edital_mal_formado item Hi) as [msg ->]. eauto.
Qed.

(** X21: a 200 answer whose body is an object with a list ["data"] of
    well-formed records (objects whose buying entity, unit and legal basis
    are objects or missing) becomes a success payload with one reshaped
    record per record of the answer, in the same number as
    ["quantidade_resultados"] says; the counters missing from the body
    default to 0 and the current page to the page that was asked for. *)
Theorem consultar_editais_pncp_sucesso (r : response) (d : list (string * json))
    (itens : list json) :
  requests_get api_url ps = Ok r ->
  status_code r = 200%Z ->
  resp_json r = Ok (JDict d) ->
  assoc "data" d = Some (JList itens) ->
  forallb registro_bem_formado itens = true ->
  exists editais,
    mapM edital itens = Ok editais
    /\ length editais = length itens
    /\ saida
       = JDict [("success", JBool true);
                ("fonte", JStr (u "Portal Nacional de Contratações Públicas (PNCP)"));
                ("total_registros", default (JInt 0) (assoc "totalRegistros" d));
                ("total_paginas", default (JInt 0) (assoc "totalPaginas" d));
                ("pagina_atual", default (JInt pagina) (assoc "numeroPagina" d));
                ("paginas_restantes", default (JInt 0) (assoc "paginasRestantes" d));
                ("quantidade_resultados", JInt (Z.of_nat (length itens)));
                ("editais", JList editais)].
Proof.
  intros Hget Hst Hj Hdata Hbem.
  destruct (mapM_edital_ok itens Hbem) as (editais & Hed & Hlen).
  exists editais. split; [exact Hed|]. split; [exact Hlen|].
  unfold consultar_editais_pncp_http, consultar_editais_pncp, bloco_try, corpo_try.
  rewrite Hget. unfold mbind at 1, result_bind at 1. rewrite Hst. simpl Z.eqb.
  cbv iota. unfold mbind at 1, result_bind at 1. rewrite Hj.
  unfold resultado_200. rewrite !py_get_dict, Hdata.
  unfold mbind, result_bind. simpl. rewrite Hed. reflexivity.
Qed.

(** X22: one record that is not well formed spoils the whole answer.  When
    a 200 answer lists a record that is not an object, or whose buying
    entity, unit or legal basis is present but not an object ([null], say),
    the result is the generic error payload with the text of the
    AttributeError: no partial list of records is returned. *)
Theorem consultar_editais_pncp_registro_ruim (r : response)
    (d : list (string * json)) (itens : list json) :
  requests_get api_url ps = Ok r ->
  status_code r = 200%Z ->
  resp_json r = Ok (JDict d) ->
  assoc "data" d = Some (JList itens) ->
  forallb registro_bem_formado itens = false ->
  exists msg,
    saida = JDict [("success", JBool false);
                   ("error", JStr msg);
                   ("message", JStr (u "Erro ao consultar a API do PNCP"))]
    /\ campo_de "editais" saida = None.
Proof.
  intros Hget Hst Hj Hdata Hruim.
  destruct (mapM_edital_falha itens Hruim) as (msg & Hed).
  exists msg.
  assert (Hs : saida = JDict [("success", JBool false);
                              ("error", JStr msg);
                              ("message", JStr (u "Erro ao consultar a API do PNCP"))]).
  { unfold consultar_editais_pncp_http, consultar_editais_pncp, bloco_try, corpo_try.
    rewrite Hget. unfold mbind at 1, result_bind at 1. rewrite Hst. simpl Z.eqb.
    cbv iota. unfold mbind at 1, result_bind at 1. rewrite Hj.
    unfold resultado_200. rewrite !py_get_dict, Hdata.
    unfold mbind, result_bind. simpl. rewrite Hed. reflexivity. }
  split; [exact Hs|]. rewrite Hs. reflexivity.
Qed.

End PNCPMais.

(** ** The prompt loader *)

Lemma endswith_unfold (suf s : string) :
  Loader.endswith suf s
  = String.eqb s suf
    || match s with
       | EmptyString => false
       | String _ s' => Loader.endswith suf s'
       end.
Proof. destruct s; reflexivity. Qed.

Lemma endswith_append (suf s : string) :
  Loader.endswith suf (String.append s suf) = true.
Proof.
  induction s as [|a s IH].
  - change (String.append "" suf) with suf.
    rewrite endswith_unfold, String.eqb_refl. reflexivity.
  - change (String.append (String a s) suf) with (String a (String.append s suf)).
    rewrite endswith_unfold. cbv iota. rewrite IH. apply orb_true_r.
Qed.

Lemma com_extensao_idem (filename : string) :
  Loader.com_extensao (Loader.com_extensao filename) = Loader.com_extensao filename.
Proof.
  unfold Loader.com_extensao.
  destruct (Loader.endswith ".json" filename) eqn:H; [rewrite H; reflexivity|].
  rewrite endswith_append. reflexivity.
Qed.

(** X23: the extension of a prompt file is optional.  The name that is
    opened always ends in ".json"; a name without the extension gets it, so
    loading "name" and loading "name.json" give the same result (the same
    prompts or the same exception). *)
Theorem load_prompt_file_extensao {World : Type} (caminho : string -> string)
    (abrir_json : string -> World -> result (gmap string str))
    (filename : string) (w : World) :
  Loader.endswith ".json" (Loader.com_extensao filename) = true
  /\ Loader.load_prompt_file caminho abrir_json (Loader.com_extensao filename) w
     = Loader.load_prompt_file caminho abrir_json filename w
  /\ (Loader.endswith ".json" filename = false ->
      Loader.load_prompt_file caminho abrir_json (String.append filename ".json") w
      = Loader.load_prompt_file caminho abrir_json filename w).
Proof.
  split; [|split].
  - unfold Loader.com_extensao.
    destruct (Loader.endswith ".json" filename) eqn:H; [exact H|apply endswith_append].
  - unfold Loader.load_prompt_file. rewrite com_extensao_idem. reflexivity.
  - intros H. unfold Loader.load_prompt_file, Loader.com_extensao.
    rewrite endswith_append, H. reflexivity.
Qed.

Lemma load_prompt_file_extensao_witness :
  Loader.endswith ".json" "agent_prompts" = false
  /\ Loader.load_prompt_file Exemplo.caminho Exemplo.abrir_json "agent_prompts"
       Exemplo.dia1
     = Ok Exemplo.agent_prompts
  /\ Loader.load_prompt_file Exemplo.caminho Exemplo.abrir_json "agent_prompts.json"
       Exemplo.dia1
     = Ok Exemplo.agent_prompts.
Proof.
  split; [reflexivity|].
  destruct (load_prompt_file_extensao Exemplo.caminho Exemplo.abrir_json
              "agent_prompts" Exemplo.dia1) as (_ & _ & H).
  split; [reflexivity|]. change "agent_prompts.json"
    with (String.append "agent_prompts" ".json").
  rewrite (H eq_refl). reflexivity.
Defined.

(** ** [chat] and the prompt loader *)

Section ChatLoader.

Import Agent.

Context {World : Type}.
Variable load_prompt_file : string -> World -> result (gmap string str).
Variable llm : list message -> World -> result ai_message * World.


End ChatLoader.

(** ** The further properties on concrete inputs *)

Lemma chat_resposta_direta_witness :
  (0 < 15)%Z
  /\ Agent.chat Exemplo.load_prompt_file Exemplo.llm_direto (u "Oi") 15
       (Exemplo.inicio Exemplo.dia1)
     = (Ok (u "Olá!"),
        {| Agent.self :=
             {| Agent.tools := Exemplo.ferramentas;
                Agent.system_prompt := Agent.system_prompt Exemplo.agente1;
                Agent.chat_history :=
                  [Agent.HumanMessage (u "Oi"); Agent.AIMessage (u "Olá!") []] |};
           Agent.mundo := Exemplo.dia1;
           Agent.invocacoes :=
             [[Agent.SystemMessage (Agent.system_prompt Exemplo.agente1);
               Agent.HumanMessage (u "Oi")]] |}).
Proof.
  split; [lia|].
  rewrite (chat_resposta_direta Exemplo.load_prompt_file Exemplo.llm_direto (u "Oi") 15
             (Exemplo.inicio Exemplo.dia1)
             {| Agent.content := u "Olá!"; Agent.tool_calls := [] |} Exemplo.dia1);
    [reflexivity | lia | reflexivity | reflexivity].
Defined.

Lemma chat_sem_iteracoes_witness :
  (0 <= 0)%Z
  /\ Agent.chat Exemplo.load_prompt_file Exemplo.llm_falha (u "Oi") 0
       (Exemplo.inicio Exemplo.dia1)
     = (Ok Agent.erro_msg, Exemplo.inicio Exemplo.dia1).
Proof.
  split; [lia|].
  apply (chat_sem_iteracoes Exemplo.load_prompt_file Exemplo.llm_falha (u "Oi") 0
           (Exemplo.inicio Exemplo.dia1)).
  lia.
Defined.

Lemma chat_primeira_invocacao_witness :
  (0 < 15)%Z
  /\ exists resto,
      Agent.invocacoes
        (snd (Agent.chat Exemplo.load_prompt_file Exemplo.llm_insistente (u "Oi") 15
                (Exemplo.apos 1)))
      = Agent.invocacoes (Exemplo.apos 1)
        ++ (Agent.SystemMessage (Agent.system_prompt Exemplo.agente1)
              :: [Agent.HumanMessage (u "Oi"); Agent.AIMessage (u "Olá!") []]
              ++ [Agent.HumanMessage (u "Oi")]) :: resto.
Proof.
  split; [lia|].
  apply (chat_primeira_invocacao Exemplo.load_prompt_file Exemplo.llm_insistente
           (u "Oi") 15 (Exemplo.apos 1)).
  lia.
Defined.

Lemma memoria_em_turnos_witness :
  Agent.chat_history Exemplo.agente1 = []
  /\ Agent.alcancavel Exemplo.load_prompt_file Exemplo.llm_direto Exemplo.agente1
       (Exemplo.apos 11)
  /\ exists ts : list (str * str),
      (length ts <= 10)%nat
      /\ Agent.chat_history (Agent.self (Exemplo.apos 11)) = Agent.turnos ts
      /\ Agent.get_history (Agent.self (Exemplo.apos 11))
         = flat_map (fun t =>
                       [JDict [("role", JStr (u "user")); ("content", JStr (fst t))];
                        JDict [("role", JStr (u "assistant")); ("content", JStr (snd t))]])
                    ts.
Proof.
  split; [reflexivity|]. split; [apply apos_alcancavel|].
  apply (memoria_em_turnos Exemplo.load_prompt_file Exemplo.llm_direto
           Exemplo.agente1 (Exemplo.apos 11) eq_refl (apos_alcancavel 11)).
Defined.

Lemma init_resultado_witness :
  (exists msg,
      Agent.init Exemplo.now Exemplo.load_prompt_file Exemplo.get_all_tools []
        Exemplo.dia1
      = Raise (Exc "ValueError" msg))
  /\ Exemplo.OPENAI_API_KEY <> []
  /\ Exemplo.get_all_tools Exemplo.dia1 = Ok (Agent.tools Exemplo.agente1)
  /\ Agent.chat_history Exemplo.agente1 = []
  /\ Agent.get_history Exemplo.agente1 = [].
Proof.
  split.
  - apply (proj1 (init_resultado Exemplo.now Exemplo.load_prompt_file
                    Exemplo.get_all_tools [] Exemplo.dia1)).
    reflexivity.
  - apply (proj2 (init_resultado Exemplo.now Exemplo.load_prompt_file
                    Exemplo.get_all_tools Exemplo.OPENAI_API_KEY Exemplo.dia1)
                 Exemplo.agente1).
    vm_compute. reflexivity.
Defined.

Lemma ferramentas_fixas_witness :
  Agent.alcancavel Exemplo.load_prompt_file Exemplo.llm_direto Exemplo.agente1
    (Exemplo.apos 3)
  /\ Agent.tools (Agent.self (Exemplo.apos 3)) = Exemplo.ferramentas.
Proof.
  split; [apply apos_alcancavel|].
  apply (ferramentas_fixas Exemplo.load_prompt_file Exemplo.llm_direto
           Exemplo.agente1 (Exemplo.apos 3) (apos_alcancavel 3)).
Defined.

Lemma clear_history_esquece_witness :
  (0 < 15)%Z
  /\ exists resto,
      Agent.invocacoes
        (snd (Agent.chat Exemplo.load_prompt_file Exemplo.llm_direto
                (u "E agora?") 15 (snd (Agent.clear_history (Exemplo.apos 3)))))
      = Agent.invocacoes (Exemplo.apos 3)
        ++ [Agent.SystemMessage (Agent.system_prompt (Agent.self (Exemplo.apos 3)));
            Agent.HumanMessage (u "E agora?")] :: resto.
Proof.
  split; [lia|].
  apply (clear_history_esquece Exemplo.load_prompt_file Exemplo.llm_direto
           (u "E agora?") 15 (Exemplo.apos 3)).
  lia.
Defined.

Lemma chat_try_so_falha_no_modelo_witness :
  exists st1,
    Agent.chat_try Exemplo.llm_falha (u "Oi") 15 (Exemplo.inicio Exemplo.dia1)
    = (Raise (Exc "APIConnectionError" (u "Connection error.")), st1)
    /\ exists ms w w',
        Exemplo.llm_falha ms w
        = (Raise (Exc "APIConnectionError" (u "Connection error.")), w').
Proof.
  exists {| Agent.self := Exemplo.agente1;
            Agent.mundo := Exemplo.dia1;
            Agent.invocacoes :=
              [[Agent.SystemMessage (Agent.system_prompt Exemplo.agente1);
                Agent.HumanMessage (u "Oi")]] |}.
  split; [reflexivity|].
  apply (chat_try_so_falha_no_modelo Exemplo.llm_falha (u "Oi") 15
           (Exemplo.inicio Exemplo.dia1) _
           (Exc "APIConnectionError" (u "Connection error.")) eq_refl).
Defined.

(** A round with one tool call, then the answer: the working list of the
    second model call holds the request and the result of the tool. *)
Example chat_uma_ferramenta :
  fst (Agent.chat Exemplo.load_prompt_file Exemplo.llm_uma_ferramenta (u "Oi") 15
         (Exemplo.inicio Exemplo.dia1))
  = Ok (u "Encontrei.")
  /\ map (@length _)
       (Agent.invocacoes
          (snd (Agent.chat Exemplo.load_prompt_file Exemplo.llm_uma_ferramenta
                  (u "Oi") 15 (Exemplo.inicio Exemplo.dia1))))
     = [2%nat; 4%nat]
  /\ Agent.chat_history
       (Agent.self
          (snd (Agent.chat Exemplo.load_prompt_file Exemplo.llm_uma_ferramenta
                  (u "Oi") 15 (Exemplo.inicio Exemplo.dia1))))
     = [Agent.HumanMessage (u "Oi"); Agent.AIMessage (u "Encontrei.") []].
Proof. vm_compute. repeat split. Qed.

Lemma consultar_modalidade_forma_normal_witness :
  Modalidade.normalizar (u "Pregão  -  ELETRÔNICO") = u "pregão eletrônico"
  /\ Modalidade.normalizar (u "Pregão  -  ELETRÔNICO") <> []
  /\ Modalidade.consultar_modalidade (Some (Modalidade.normalizar (u "Pregão  -  ELETRÔNICO")))
     = Modalidade.consultar_modalidade (Some (u "Pregão  -  ELETRÔNICO")).
Proof.
  split; [reflexivity|].
  assert (H : Modalidade.normalizar (u "Pregão  -  ELETRÔNICO") <> [])
    by (vm_compute; discriminate).
  split; [exact H|].
  apply (proj2 (consultar_modalidade_forma_normal (u "Pregão  -  ELETRÔNICO")) H).
Defined.

Lemma consultar_modalidade_em_branco_witness :
  u " - " <> []
  /\ Modalidade.normalizar (u " - ") = []
  /\ campo_de "total_encontrados" (Modalidade.consultar_modalidade (Some (u " - ")))
     = Some (JInt 10).
Proof.
  split; [discriminate|]. split; [reflexivity|].
  rewrite (consultar_modalidade_em_branco (u " - ")); [reflexivity|discriminate|reflexivity].
Defined.

Lemma consultar_uf_id_unico_witness :
  NoDup (map UF.e_id Exemplo.estados)
  /\ (UF.consultar_uf (Some Exemplo.estados) (Some 35%Z) None (Some (u "rio")) None
      = JDict [("success", JBool false);
               ("message",
                JStr (u "Nenhum estado encontrado com os critérios especificados"))]
      \/ exists e,
          In e Exemplo.estados /\ UF.e_id e = 35%Z
          /\ UF.consultar_uf (Some Exemplo.estados) (Some 35%Z) None (Some (u "rio")) None
             = JDict [("success", JBool true);
                      ("total_encontrados", JInt 1);
                      ("estados", JList [UF.estado_json e])]).
Proof.
  assert (Hnd : NoDup (map UF.e_id Exemplo.estados)).
  { apply NoDup_cons_2.
    - intros H. apply list_elem_of_In in H. simpl in H.
      destruct H as [H|[]]. discriminate.
    - apply NoDup_cons_2; [|apply NoDup_nil_2].
      intros H. apply list_elem_of_In in H. destruct H. }
  split; [exact Hnd|].
  apply (consultar_uf_id_unico Exemplo.rio_de_janeiro [Exemplo.sao_paulo] 35
           None (Some (u "rio")) None Hnd).
Defined.

Lemma consultar_municipio_nulo_witness :
  let sem_micro :=
    {| Municipio.m_id := 5101837; Municipio.m_nome := u "Boa Esperança do Norte";
       Municipio.m_microrregiao := Municipio.Nulo |} in
  let tabela := Some [Exemplo.vila 0; sem_micro] in
  Municipio.resultados_municipio [Exemplo.vila 0; sem_micro]
    None (Some (u "boa")) None None = Some [sem_micro]
  /\ existsb Municipio.tem_nulo [sem_micro] = true
  /\ Municipio.consultar_municipio tabela None (Some (u "boa")) None None
     = Raise Municipio.attribute_error
  /\ Municipio.resultados_municipio [Exemplo.vila 0; sem_micro]
       None (Some (u "vila")) None None = Some [Exemplo.vila 0]
  /\ existsb Municipio.tem_nulo [Exemplo.vila 0] = false
  /\ exists j,
      Municipio.consultar_municipio tabela None (Some (u "vila")) None None = Ok j.
Proof.
  intros sem_micro tabela.
  split; [reflexivity|]. split; [reflexivity|]. split.
  - apply (proj1 (consultar_municipio_nulo tabela None (Some (u "boa")) None None
                    [sem_micro] eq_refl)).
    reflexivity.
  - split; [reflexivity|]. split; [reflexivity|].
    apply (proj2 (consultar_municipio_nulo tabela None (Some (u "vila")) None None
                    [Exemplo.vila 0] eq_refl)).
    reflexivity.
Defined.

Lemma consultar_municipio_uf_nunca_levanta_witness :
  (@None str = None \/ @None str = Some [])
  /\ exists j,
      Municipio.consultar_municipio
        (Some [Exemplo.vila 0;
               {| Municipio.m_id := 5101837;
                  Municipio.m_nome := u "Boa Esperança do Norte";
                  Municipio.m_microrregiao := Municipio.Nulo |}])
        None None None (Some (u "sp"))
      = Ok j.
Proof.
  split; [left; reflexivity|].
  apply (consultar_municipio_uf_nunca_levanta _ None None (Some (u "sp"))).
  left. reflexivity.
Defined.

Lemma consultar_municipio_uf_id_linhas_witness :
  exists j linhas,
    Municipio.consultar_municipio (Some Exemplo.vilas) None None (Some 35%Z) None = Ok j
    /\ campo_de "municipios" j = Some (JList linhas)
    /\ length linhas = 60%nat
    /\ Forall (fun linha =>
                 exists ufj, campo_de "uf" linha = Some ufj
                             /\ campo_de "id" ufj = Some (JInt 35))
              linhas.
Proof.
  destruct (Municipio.consultar_municipio (Some Exemplo.vilas) None None (Some 35%Z) None)
    as [j|e] eqn:Hj; [|vm_compute in Hj; discriminate].
  destruct (campo_de "municipios" j) as [[| | | |linhas|]|] eqn:Hl;
    try (vm_compute in Hj; injection Hj as <-; vm_compute in Hl; discriminate).
  exists j, linhas. split; [reflexivity|]. split; [exact Hl|]. split.
  - vm_compute in Hj. injection Hj as <-. vm_compute in Hl. injection Hl as <-.
    reflexivity.
  - apply (consultar_municipio_uf_id_linhas (Some Exemplo.vilas) 35 None j linhas Hj Hl).
Defined.

Lemma params_conteudo_witness :
  ~ In "timeout" PNCP.chaves_params
  /\ PNCP.params (u "20260220") 2 10 (Some (u "sp")) None (Some 0%Z) (Some [])
       !! "uf" = Some (PNCP.VStr (u "SP"))
  /\ PNCP.params (u "20260220") 2 10 (Some (u "sp")) None (Some 0%Z) (Some [])
       !! "codigoModalidadeContratacao" = None
  /\ PNCP.params (u "20260220") 2 10 (Some (u "sp")) None (Some 0%Z) (Some [])
       !! "timeout" = None.
Proof.
  assert (Hk : ~ In "timeout" PNCP.chaves_params).
  { simpl. intros H. repeat (destruct H as [H|H]; [discriminate|]). exact H. }
  split; [exact Hk|].
  destruct (params_conteudo (u "20260220") 2 10 (Some (u "sp")) None (Some 0%Z) (Some []))
    as (_ & _ & Huf & _ & Hmod & _ & Houtra).
  split; [exact Huf|]. split; [exact Hmod|]. apply Houtra, Hk.
Defined.

Lemma consultar_editais_pncp_erro_http_witness :
  exists r,
    Exemplo.get_500 PNCP.api_url
      (PNCP.params (u "20260220") 1 10 (Some (u "sp")) None None None) = Ok r
    /\ PNCP.status_code r <> 200%Z
    /\ campo_de "status_code"
         (PNCP.consultar_editais_pncp_http Exemplo.get_500 Exemplo.dumps
            (u "20260220") 1 10 (Some (u "sp")) None None None)
       = Some (JInt 500)
    /\ campo_de "message"
         (PNCP.consultar_editais_pncp_http Exemplo.get_500 Exemplo.dumps
            (u "20260220") 1 10 (Some (u "sp")) None None None)
       = Some (JStr (u "Não foi possível obter os dados. Verifique os parâmetros e tente novamente."
                     ++ [10] ++ u "Resposta: Internal Server Error")).
Proof.
  eexists. split; [reflexivity|]. split; [discriminate|].
  rewrite (consultar_editais_pncp_erro_http Exemplo.get_500 Exemplo.dumps
             (u "20260220") 1 10 (Some (u "sp")) None None None _ eq_refl);
    [split; reflexivity|discriminate].
Defined.

Lemma consultar_editais_pncp_excecao_witness :
  Exemplo.get_timeout PNCP.api_url
    (PNCP.params (u "20260220") 1 10 None None None None)
  = Raise (Exc "ReadTimeout" (u "Read timed out. (read timeout=30)"))
  /\ campo_de "error"
       (PNCP.consultar_editais_pncp_http Exemplo.get_timeout Exemplo.dumps
          (u "20260220") 1 10 None None None None)
     = Some (JStr (u "Timeout na requisição")).
Proof.
  split; [reflexivity|].
  rewrite (proj1 (consultar_editais_pncp_excecao Exemplo.get_timeout Exemplo.dumps
                    (u "20260220") 1 10 None None None None
                    (Exc "ReadTimeout" (u "Read timed out. (read timeout=30)"))
                    (or_introl eq_refl))).
  reflexivity.
Defined.

Lemma consultar_editais_pncp_sucesso_witness :
  exists r d itens editais,
    Exemplo.get_200 PNCP.api_url
      (PNCP.params (u "20260220") 3 10 None None None None) = Ok r
    /\ PNCP.status_code r = 200%Z
    /\ PNCP.resp_json r = Ok (JDict d)
    /\ assoc "data" d = Some (JList itens)
    /\ forallb PNCP.registro_bem_formado itens = true
    /\ length editais = 2%nat
    /\ PNCP.consultar_editais_pncp_http Exemplo.get_200 Exemplo.dumps
         (u "20260220") 3 10 None None None None
       = JDict [("success", JBool true);
                ("fonte", JStr (u "Portal Nacional de Contratações Públicas (PNCP)"));
                ("total_registros", JInt 2);
                ("total_paginas", JInt 1);
                ("pagina_atual", JInt 3);
                ("paginas_restantes", JInt 0);
                ("quantidade_resultados", JInt 2);
                ("editais", JList editais)].
Proof.
  destruct (consultar_editais_pncp_sucesso Exemplo.get_200 Exemplo.dumps
              (u "20260220") 3 10 None None None None _ _ _
              eq_refl eq_refl eq_refl eq_refl eq_refl)
    as (editais & Hed & Hlen & Hs).
  do 3 eexists. exists editais.
  split; [reflexivity|]. split; [reflexivity|]. split; [reflexivity|].
  split; [reflexivity|]. split; [reflexivity|]. split; [exact Hlen|].
  rewrite Hs. reflexivity.
Defined.

Lemma consultar_editais_pncp_registro_ruim_witness :
  exists r d itens,
    Exemplo.get_200_nulo PNCP.api_url
      (PNCP.params (u "20260220") 1 10 None None None None) = Ok r
    /\ PNCP.status_code r = 200%Z
    /\ PNCP.resp_json r = Ok (JDict d)
    /\ assoc "data" d = Some (JList itens)
    /\ forallb PNCP.registro_bem_formado itens = false
    /\ exists msg,
        PNCP.consultar_editais_pncp_http Exemplo.get_200_nulo Exemplo.dumps
          (u "20260220") 1 10 None None None None
        = JDict [("success", JBool false);
                 ("error", JStr msg);
                 ("message", JStr (u "Erro ao consultar a API do PNCP"))].
Proof.
  destruct (consultar_editais_pncp_registro_ruim Exemplo.get_200_nulo Exemplo.dumps
              (u "20260220") 1 10 None None None None _ _ _
              eq_refl eq_refl eq_refl eq_refl eq_refl)
    as (msg & Hs & _).
  do 3 eexists.
  split; [reflexivity|]. split; [reflexivity|]. split; [reflexivity|].
  split; [reflexivity|]. split; [reflexivity|]. exists msg. exact Hs.
Defined.

(** The text of the error when the buying entity of a record is [null]. *)
Example registro_ruim_mensagem :
  campo_de "error"
    (PNCP.consultar_editais_pncp_http Exemplo.get_200_nulo Exemplo.dumps
       (u "20260220") 1 10 None None None None)
  = Some (JStr (u "'NoneType' object has no attribute 'get'")).
Proof. vm_compute. reflexivity. Qed.


(** ** [chat] when an exception leaves its [try] block *)

Section ChatExcecao.

Import Agent.

Context {World : Type}.
Variable load_prompt_file : string -> World -> result (gmap string str).
Variable llm : list message -> World -> result ai_message * World.


End ChatExcecao.



